(** * Nexus knowledge-graph client: authentication and Classroom glue

    A shallow embedding of the TypeScript sources

    - [src/store/useAuthStore.ts]            (the persisted session store),
    - [components/auth/AuthModal]            (Google login reconciliation and
                                              the e-mail / password form),
    - [hooks/useClassroomApi]                (the Classroom access-token hook),
    - [lib/classroomApi]                     (course filtering, the fetchers,
                                              [extractMaterialInfo]),
    - [SectionMaterialModal], [HomePage] and the navigation bars (the item
      list and its guard, the project search and creation, what is shown
      to whom),

    followed by the properties of these functions.  JavaScript strings are
    sequences of UTF-16 code units; asynchronous calls are sequential
    (every call is awaited), so a handler is a function from a world to an
    outcome and a new world. *)

From Stdlib Require Import NArith List Bool Lia String Ascii PeanoNat.
From Stdlib Require Import ZArith DecimalString Permutation Sorted.
Import ListNotations.

Set Implicit Arguments.

(* ================================================================== *)
(** * Part I: the embedding                                            *)
(* ================================================================== *)

(** ** JavaScript strings and the primitives the sources call *)

Module Js.

(** A UTF-16 code unit. *)
Definition char16 := N.

(** A JavaScript string: its sequence of code units. *)
Definition jsstring := list char16.

(** A source string literal (ASCII text) as a JavaScript string. *)
Definition lit (s : string) : jsstring :=
  List.map N_of_ascii (list_ascii_of_string s).

Fixpoint str_eqb (a b : jsstring) : bool :=
  match a, b with
  | [], [] => true
  | x :: a', y :: b' => N.eqb x y && str_eqb a' b'
  | _, _ => false
  end.

(** [a === b] on values that are a string, [null] or [undefined]; the two
    sides compared in the sources are never one [null] and the other
    [undefined], so absence is a single [None]. *)
Definition opt_str_eqb (a b : option jsstring) : bool :=
  match a, b with
  | None, None => true
  | Some x, Some y => str_eqb x y
  | _, _ => false
  end.

(** [!!v] for a value that is a string, [null] or [undefined]: the empty
    string is falsy like [null]. *)
Definition truthy (v : option jsstring) : bool :=
  match v with
  | Some (_ :: _) => true
  | _ => false
  end.

(** [a || b] on such values. *)
Definition or_else (a b : option jsstring) : option jsstring :=
  if truthy a then a else b.

(** [s.startsWith(p)]. *)
Fixpoint startsWith (s p : jsstring) {struct p} : bool :=
  match p, s with
  | [], _ => true
  | _ :: _, [] => false
  | x :: p', c :: s' => N.eqb x c && startsWith s' p'
  end.

(** [s.includes(sub)]. *)
Fixpoint includes (s sub : jsstring) : bool :=
  startsWith s sub ||
  match s with
  | [] => false
  | _ :: s' => includes s' sub
  end.

(** [s.charAt(i)]: the one-unit string at [i], the empty string when [i]
    is out of range. *)
Definition charAt (i : nat) (s : jsstring) : jsstring :=
  match nth_error s i with
  | Some c => [c]
  | None => []
  end.

(** [parts.join('')]. *)
Definition join_empty (parts : list jsstring) : jsstring := List.concat parts.

(** ECMAScript WhiteSpace and LineTerminator code points: what
    [String.prototype.trim] strips and what [\s] matches. *)
Definition is_space (c : char16) : bool :=
  ((9 <=? c) && (c <=? 13) ||
   (c =? 32) || (c =? 160) || (c =? 5760) ||
   (8192 <=? c) && (c <=? 8202) ||
   (c =? 8232) || (c =? 8233) || (c =? 8239) || (c =? 8287) ||
   (c =? 12288) || (c =? 65279))%N.

Fixpoint trimStart (s : jsstring) : jsstring :=
  match s with
  | c :: s' => if is_space c then trimStart s' else s
  | [] => []
  end.

Definition trimEnd (s : jsstring) : jsstring := rev (trimStart (rev s)).

(** [s.trim()]. *)
Definition trim (s : jsstring) : jsstring := trimEnd (trimStart s).

(** [c] lies in the inclusive range [lo-hi] of a character class. *)
Definition in_range (lo hi : string) (c : char16) : bool :=
  match lit lo, lit hi with
  | [l], [h] => ((l <=? c) && (c <=? h))%N
  | _, _ => false
  end.

(** What a JavaScript [throw] carries in these sources: an [Error] with
    its [message], or some other value with its [String(v)] rendering. *)
Inductive Thrown : Type :=
| ErrorObj (message : jsstring)
| OtherValue (asString : jsstring).

End Js.
Import Js.

(** ** Regular expressions (the patterns of [validateEmail] and
       [validatePassword]), matched by Brzozowski derivatives *)

Module Regex.

Inductive re : Type :=
| Empty                                  (* matches nothing *)
| Eps                                    (* the empty string *)
| Cls (p : char16 -> bool)               (* one unit of a class *)
| Cat (r1 r2 : re)
| Alt (r1 r2 : re)
| Star (r : re).

(** [r+]. *)
Definition Plus (r : re) : re := Cat r (Star r).

Fixpoint nullable (r : re) : bool :=
  match r with
  | Empty => false
  | Eps => true
  | Cls _ => false
  | Cat r1 r2 => nullable r1 && nullable r2
  | Alt r1 r2 => nullable r1 || nullable r2
  | Star _ => true
  end.

Fixpoint deriv (c : char16) (r : re) : re :=
  match r with
  | Empty => Empty
  | Eps => Empty
  | Cls p => if p c then Eps else Empty
  | Cat r1 r2 =>
      if nullable r1
      then Alt (Cat (deriv c r1) r2) (deriv c r2)
      else Cat (deriv c r1) r2
  | Alt r1 r2 => Alt (deriv c r1) (deriv c r2)
  | Star r1 => Cat (deriv c r1) (Star r1)
  end.

(** The whole of [s] matches [r]: a pattern written [^r$]. *)
Fixpoint fullmatch (r : re) (s : jsstring) : bool :=
  match s with
  | [] => nullable r
  | c :: s' => fullmatch (deriv c r) s'
  end.

Definition any : re := Cls (fun _ => true).

(** [/r/.test(s)] for a pattern without anchors: some substring matches. *)
Definition search (r : re) (s : jsstring) : bool :=
  fullmatch (Cat (Star any) (Cat r (Star any))) s.

(** The words of [r], as a relation (used to reason about [fullmatch]). *)
Inductive lang : re -> jsstring -> Prop :=
| L_eps : lang Eps []
| L_cls p c : p c = true -> lang (Cls p) [c]
| L_cat r1 r2 s1 s2 : lang r1 s1 -> lang r2 s2 -> lang (Cat r1 r2) (s1 ++ s2)
| L_alt_l r1 r2 s : lang r1 s -> lang (Alt r1 r2) s
| L_alt_r r1 r2 s : lang r2 s -> lang (Alt r1 r2) s
| L_star_nil r : lang (Star r) []
| L_star_app r s1 s2 : lang r s1 -> lang (Star r) s2 -> lang (Star r) (s1 ++ s2).

End Regex.

(** ** The session store: [src/store/useAuthStore.ts] *)

Module AuthStore.

(** Modelled from the spec: the [Profile] declaration of [@/types/knowledge]
    is not among the sources; these are the fields the spec lists and the
    ones [AuthModal] reads and writes. *)
Record Profile : Type := mkProfile {
  id : jsstring;
  email : jsstring;
  displayName : option jsstring;
  avatarUrl : option jsstring;
  provider : option jsstring
}.

(** [interface AuthState], data fields. *)
Record AuthState : Type := mkAuthState {
  user : option Profile;
  isAuthenticated : bool;
  isAuthLoading : bool;
  authError : option jsstring
}.

(** A [Partial<AuthState>]: the object literal handed to zustand's [set].
    A field is [None] when the literal does not mention it. *)
Record Patch : Type := mkPatch {
  p_user : option (option Profile);
  p_isAuthenticated : option bool;
  p_isAuthLoading : option bool;
  p_authError : option (option jsstring)
}.

Definition pick {A : Type} (new : option A) (old : A) : A :=
  match new with
  | Some v => v
  | None => old
  end.

(** zustand's [set(partial)]: a shallow merge into the current state. *)
Definition set (p : Patch) (s : AuthState) : AuthState :=
  {| user := pick (p_user p) (user s);
     isAuthenticated := pick (p_isAuthenticated p) (isAuthenticated s);
     isAuthLoading := pick (p_isAuthLoading p) (isAuthLoading s);
     authError := pick (p_authError p) (authError s) |}.

(** [!!user] for [user : Profile | null]: an object is truthy. *)
Definition not_not (u : option Profile) : bool :=
  match u with
  | Some _ => true
  | None => false
  end.

(** The state the store is created with. *)
Definition initial : AuthState :=
  {| user := None; isAuthenticated := false;
     isAuthLoading := false; authError := None |}.

Definition setUser (u : option Profile) : AuthState -> AuthState :=
  set {| p_user := Some u; p_isAuthenticated := Some (not_not u);
         p_isAuthLoading := None; p_authError := None |}.

Definition setAuthLoading (loading : bool) : AuthState -> AuthState :=
  set {| p_user := None; p_isAuthenticated := None;
         p_isAuthLoading := Some loading; p_authError := None |}.

Definition setAuthError (error : option jsstring) : AuthState -> AuthState :=
  set {| p_user := None; p_isAuthenticated := None;
         p_isAuthLoading := None; p_authError := Some error |}.

Definition login (u : Profile) : AuthState -> AuthState :=
  set {| p_user := Some (Some u); p_isAuthenticated := Some true;
         p_isAuthLoading := None; p_authError := Some None |}.

Definition logout : AuthState -> AuthState :=
  set {| p_user := Some None; p_isAuthenticated := Some false;
         p_isAuthLoading := None; p_authError := Some None |}.

(** One call of a store operation. *)
Inductive Action : Type :=
| SetUser (u : option Profile)
| SetAuthLoading (loading : bool)
| SetAuthError (error : option jsstring)
| Login (u : Profile)
| Logout.

Definition step (s : AuthState) (a : Action) : AuthState :=
  match a with
  | SetUser u => setUser u s
  | SetAuthLoading b => setAuthLoading b s
  | SetAuthError e => setAuthError e s
  | Login u => login u s
  | Logout => logout s
  end.

(** The store after a sequence of calls, oldest first. *)
Definition run (acts : list Action) (s : AuthState) : AuthState :=
  fold_left step acts s.

(** The store's invariant: the flag is the truthiness of [user]. *)
Definition flag_tracks_user (s : AuthState) : Prop :=
  isAuthenticated s = not_not (user s).

End AuthStore.

(** ** [Math.random().toString(36)] *)

Module JsMath.

(** A Number that [Math.random()] can return (at least [+0], less than 1),
    given by the digits that [toString(36)] prints after the point; [+0],
    which prints as ["0"], has none. *)
Record Draw : Type := mkDraw { fraction36 : list N }.

(** The radix-36 digit characters [0-9a-z]. *)
Definition digit36 (d : N) : char16 :=
  let d := (d mod 36)%N in
  if (d <? 10)%N then (48 + d)%N else (87 + d)%N.

(** [x.toString(36)] for such a number: ["0"] or ["0."] and digits. *)
Definition toString36 (x : Draw) : jsstring :=
  match fraction36 x with
  | [] => lit "0"
  | ds => lit "0." ++ List.map digit36 ds
  end.

End JsMath.

(** ** [AuthModal]: Google login and the e-mail / password form *)

Module AuthModal.

Import Regex.

Inductive Mode : Type := LoginMode | SignupMode.

(** The component's [useState] cells. *)
Record FormState : Type := mkForm {
  mode : Mode;
  st_email : jsstring;
  st_password : jsstring;
  st_displayName : jsstring;
  isLoading : bool;
  isGoogleLoading : bool;
  error : option jsstring
}.

(** The [userinfo] document of the identity provider. *)
Record UserInfo : Type := mkUserInfo {
  ui_email : jsstring;
  ui_name : option jsstring;
  ui_picture : option jsstring
}.

(** Argument of [api.auth.register]. *)
Record RegisterReq : Type := mkRegisterReq {
  r_email : jsstring;
  r_password : jsstring;
  r_displayName : option jsstring;
  r_avatarUrl : option jsstring
}.

(** Argument of [api.auth.login]. *)
Record LoginReq : Type := mkLoginReq {
  l_email : jsstring;
  l_password : jsstring
}.

(** A request that left the client. *)
Inductive Call : Type :=
| CallUserInfo (access_token : jsstring)
| CallGetByEmail (email : jsstring) (suppressLog : bool)
| CallUpdate (id : jsstring) (fields : AuthStore.Profile)
| CallRegister (req : RegisterReq)
| CallLogin (req : LoginReq).

(** How an awaited call or a block ends. *)
Inductive Outcome (A : Type) : Type :=
| Returned (a : A)
| Threw (e : Thrown).
Arguments Returned {A} a.
Arguments Threw {A} e.

(** The [Response] of the [fetch] of the user info. *)
Record FetchResponse : Type := mkFetchResponse {
  ok : bool;
  json : Outcome UserInfo
}.

(** Everything outside the component that one run of a handler consults:
    the answers of the remote services and of [Math.random]. *)
Record Env : Type := mkEnv {
  googleUserInfo : jsstring -> Outcome FetchResponse;
  getByEmail : jsstring -> bool -> Outcome (option AuthStore.Profile);
  update : jsstring -> AuthStore.Profile -> Outcome AuthStore.Profile;
  register : RegisterReq -> Outcome AuthStore.Profile;
  authLogin : LoginReq -> Outcome AuthStore.Profile;
  random : nat -> JsMath.Draw
}.

(** What a handler can change: the session store, the form cells, the
    number of [onClose()] calls, and the requests sent so far. *)
Record World : Type := mkWorld {
  session : AuthStore.AuthState;
  form : FormState;
  closed : nat;
  calls : list Call
}.

(** A sequential block: state passing with exceptions. *)
Definition M (A : Type) : Type := World -> Outcome A * World.

Definition ret {A : Type} (a : A) : M A := fun w => (Returned a, w).

Definition throw {A : Type} (e : Thrown) : M A := fun w => (Threw e, w).

Definition bind {A B : Type} (m : M A) (k : A -> M B) : M B :=
  fun w =>
    match m w with
    | (Returned a, w') => k a w'
    | (Threw e, w') => (Threw e, w')
    end.

(** [try { m } catch (err) { h err }]. *)
Definition try_catch {A : Type} (m : M A) (h : Thrown -> M A) : M A :=
  fun w =>
    match m w with
    | (Returned a, w') => (Returned a, w')
    | (Threw e, w') => h e w'
    end.

(** [try { m } finally { f }]. *)
Definition finally {A : Type} (m : M A) (f : M unit) : M A :=
  fun w =>
    match m w with
    | (r, w') =>
        match f w' with
        | (Returned _, w'') => (r, w'')
        | (Threw e, w'') => (Threw e, w'')
        end
    end.

Declare Scope js_scope.
Delimit Scope js_scope with js.
Notation "x <- m ;; k" := (bind m (fun x => k))
  (at level 61, m at next level, right associativity) : js_scope.
Notation "m ;; k" := (bind m (fun _ => k))
  (at level 61, right associativity) : js_scope.
Open Scope js_scope.

(** The world once the request [c] has left the client. *)
Definition sent (c : Call) (w : World) : World :=
  {| session := session w; form := form w; closed := closed w;
     calls := calls w ++ [c] |}.

(** An awaited request: logged, then answered by the environment. *)
Definition request {A : Type} (c : Call) (answer : Outcome A) : M A :=
  fun w => (answer, sent c w).

(** The requests sent between the world [w] and the later world [w']. *)
Definition new_calls (w w' : World) : list Call :=
  skipn (List.length (calls w)) (calls w').

Definition modify_form (f : FormState -> FormState) : M unit :=
  fun w =>
    (Returned tt,
     {| session := session w; form := f (form w); closed := closed w;
        calls := calls w |}).

Definition modify_session (f : AuthStore.AuthState -> AuthStore.AuthState)
  : M unit :=
  fun w =>
    (Returned tt,
     {| session := f (session w); form := form w; closed := closed w;
        calls := calls w |}).

Definition read_form : M FormState := fun w => (Returned (form w), w).

(** [onClose()], a callback of the parent: counted. *)
Definition onClose : M unit :=
  fun w =>
    (Returned tt,
     {| session := session w; form := form w; closed := S (closed w);
        calls := calls w |}).

Definition setError (e : option jsstring) : M unit :=
  modify_form (fun f =>
    {| mode := mode f; st_email := st_email f; st_password := st_password f;
       st_displayName := st_displayName f; isLoading := isLoading f;
       isGoogleLoading := isGoogleLoading f; error := e |}).

Definition setIsLoading (b : bool) : M unit :=
  modify_form (fun f =>
    {| mode := mode f; st_email := st_email f; st_password := st_password f;
       st_displayName := st_displayName f; isLoading := b;
       isGoogleLoading := isGoogleLoading f; error := error f |}).

Definition setIsGoogleLoading (b : bool) : M unit :=
  modify_form (fun f =>
    {| mode := mode f; st_email := st_email f; st_password := st_password f;
       st_displayName := st_displayName f; isLoading := isLoading f;
       isGoogleLoading := b; error := error f |}).

(** The three inputs set to [''] and the error to [null]. *)
Definition emptied (f : FormState) : FormState :=
  {| mode := mode f; st_email := []; st_password := [];
     st_displayName := []; isLoading := isLoading f;
     isGoogleLoading := isGoogleLoading f; error := None |}.

(** [resetForm]. *)
Definition resetForm : M unit := modify_form emptied.

(** [login] of the session store, as the component obtains it. *)
Definition login (u : AuthStore.Profile) : M unit :=
  modify_session (AuthStore.login u).

(** [validateEmail]: the pattern [^[^\s@]+@[^\s@]+\.[^\s@]+$]. *)
Definition not_space_at : re :=
  Cls (fun c => negb (is_space c || in_range "@" "@" c)).

Definition email_re : re :=
  Cat (Plus not_space_at)
    (Cat (Cls (in_range "@" "@"))
       (Cat (Plus not_space_at)
          (Cat (Cls (in_range "." ".")) (Plus not_space_at)))).

Definition validateEmail (email : jsstring) : bool := fullmatch email_re email.

(** [validatePassword]: length at least 6, [/[a-zA-Z]/] and [/[0-9]/]. *)
Definition letter_re : re :=
  Cls (fun c => in_range "a" "z" c || in_range "A" "Z" c).

Definition digit_re : re := Cls (in_range "0" "9").

Definition validatePassword (password : jsstring) : bool :=
  (6 <=? List.length password) && search letter_re password
  && search digit_re password.

(** The generated credential: 16 times the character at index 2 of a
    random number in radix 36, joined, and ['Aa1']. *)
Definition randomPassword (rnd : nat -> JsMath.Draw) : jsstring :=
  join_empty
    (List.map (fun i => charAt 2 (JsMath.toString36 (rnd i))) (seq 0 16))
  ++ lit "Aa1".

(** The draw is not [+0]: its radix-36 text has a character at index 2. *)
Definition nonzero (d : JsMath.Draw) : bool :=
  match JsMath.fraction36 d with
  | [] => false
  | _ :: _ => true
  end.

(** How many of the 16 draws of one generated credential are not [+0]. *)
Definition nonzero_draws (rnd : nat -> JsMath.Draw) : nat :=
  List.length (List.filter nonzero (List.map rnd (seq 0 16))).

(** [{ ...p, provider: 'google' }]. *)
Definition with_google (p : AuthStore.Profile) : AuthStore.Profile :=
  {| AuthStore.id := AuthStore.id p;
     AuthStore.email := AuthStore.email p;
     AuthStore.displayName := AuthStore.displayName p;
     AuthStore.avatarUrl := AuthStore.avatarUrl p;
     AuthStore.provider := Some (lit "google") |}.

(** The object sent to [api.profiles.update], which is also the found
    profile after the two local assignments that follow a successful
    update. *)
Definition synced (p : AuthStore.Profile) (picture : option jsstring)
  : AuthStore.Profile :=
  {| AuthStore.id := AuthStore.id p;
     AuthStore.email := AuthStore.email p;
     AuthStore.displayName := AuthStore.displayName p;
     AuthStore.avatarUrl := picture;
     AuthStore.provider := Some (lit "google") |}.

(** [err instanceof Error ? err.message : String(err)]. *)
Definition errorMsg_of (err : Thrown) : jsstring :=
  match err with
  | ErrorObj m => m
  | OtherValue s => s
  end.

Definition is_not_found (msg : jsstring) : bool :=
  includes msg (lit "404") || includes msg (lit "Not Found").

(** [userInfo.picture && existingProfile.avatarUrl !== userInfo.picture]. *)
Definition needsSync (userInfo : UserInfo) (existingProfile : AuthStore.Profile)
  : bool :=
  truthy (ui_picture userInfo)
  && negb (opt_str_eqb (AuthStore.avatarUrl existingProfile)
                       (ui_picture userInfo)).

Section Handlers.

Variable env : Env.

(** Step 1 of the Google flow: the lookup by e-mail, giving
    [(existingProfile, shouldRegister)]. *)
Definition lookup (userInfo : UserInfo)
  : M (option AuthStore.Profile * bool) :=
  try_catch
    (existingProfile <-
       request (CallGetByEmail (ui_email userInfo) true)
               (getByEmail env (ui_email userInfo) true) ;;
     ret (existingProfile, false))
    (fun err =>
       if is_not_found (errorMsg_of err)
       then ret (None, true)
       else throw (ErrorObj
              (lit "Could not verify account status. Please try again."))).

(** The avatar sync of the existing-profile branch; returns the local
    [existingProfile] as it is afterwards. *)
Definition syncAvatar (userInfo : UserInfo) (existingProfile : AuthStore.Profile)
  : M AuthStore.Profile :=
  if needsSync userInfo existingProfile
  then
    try_catch
      (request
         (CallUpdate (AuthStore.id existingProfile)
                     (synced existingProfile (ui_picture userInfo)))
         (update env (AuthStore.id existingProfile)
                     (synced existingProfile (ui_picture userInfo))) ;;
       ret (synced existingProfile (ui_picture userInfo)))
      (fun _ => ret existingProfile)
  else ret existingProfile.

(** The local [existingProfile] once the avatar sync is over. *)
Definition after_sync (userInfo : UserInfo) (p : AuthStore.Profile)
  : AuthStore.Profile :=
  if needsSync userInfo p then
    match update env (AuthStore.id p) (synced p (ui_picture userInfo)) with
    | Returned _ => synced p (ui_picture userInfo)
    | Threw _ => p
    end
  else p.

(** The update request of the avatar sync, if one is sent. *)
Definition sync_calls (userInfo : UserInfo) (p : AuthStore.Profile)
  : list Call :=
  if needsSync userInfo p
  then [CallUpdate (AuthStore.id p) (synced p (ui_picture userInfo))]
  else [].

(** The registration request of the new-profile branch. *)
Definition autoRegisterReq (userInfo : UserInfo) : RegisterReq :=
  {| r_email := ui_email userInfo;
     r_password := randomPassword (random env);
     r_displayName := ui_name userInfo;
     r_avatarUrl := ui_picture userInfo |}.

(** The body of [handleGoogleLogin]'s [onSuccess] once [userInfo] is
    known (from [let existingProfile = null] to the end of the [try]). *)
Definition reconcile (userInfo : UserInfo) : M unit :=
  found <- lookup userInfo ;;
  match found with
  | (Some existingProfile, _) =>
      existingProfile <- syncAvatar userInfo existingProfile ;;
      login (with_google existingProfile) ;;
      onClose ;;
      resetForm
  | (None, true) =>
      newProfile <-
        request (CallRegister (autoRegisterReq userInfo))
                (register env (autoRegisterReq userInfo)) ;;
      login (with_google newProfile) ;;
      onClose ;;
      resetForm
  | (None, false) => ret tt
  end.

(** [handleGoogleLogin]'s [onSuccess(tokenResponse)]. *)
Definition onSuccess (access_token : jsstring) : M unit :=
  setIsGoogleLoading true ;;
  setError None ;;
  finally
    (try_catch
       (userInfoRes <-
          request (CallUserInfo access_token)
                  (googleUserInfo env access_token) ;;
        (if negb (ok userInfoRes)
         then throw (ErrorObj (lit "Failed to fetch user info from Google"))
         else ret tt) ;;
        userInfo <- (fun w => (json userInfoRes, w)) ;;
        reconcile userInfo)
       (fun err =>
          match err with
          | ErrorObj message => setError (Some message)
          | OtherValue _ => setError (Some (lit "Failed to login with Google"))
          end))
    (setIsGoogleLoading false).

(** The [catch] block of [handleSubmit]. *)
Definition submitFailed (m : Mode) (err : Thrown) : M unit :=
  match err with
  | ErrorObj message =>
      if is_not_found message then
        match m with
        | LoginMode =>
            setError (Some (lit "Account not found. Please sign up first."))
        | SignupMode =>
            setError (Some (lit
              "Registration failed. The server returned 404 - check if the API endpoint exists."))
        end
      else if includes message (lit "Failed to fetch") then
        setError (Some (lit
          "Cannot connect to server. Please check if the backend is running."))
      else setError (Some message)
  | OtherValue _ => setError (Some (lit "Authentication failed"))
  end.

(** [handleSubmit]: the form's submit handler, for both modes. *)
Definition handleSubmit : M unit :=
  f <- read_form ;;
  setError None ;;
  if negb (validateEmail (st_email f)) then
    setError (Some (lit "Please enter a valid email address"))
  else if negb (validatePassword (st_password f)) then
    setError (Some (lit
      "Password must be at least 6 characters with letters and numbers"))
  else
    setIsLoading true ;;
    finally
      (try_catch
         (match mode f with
          | SignupMode =>
              let req :=
                {| r_email := st_email f; r_password := st_password f;
                   r_displayName :=
                     or_else (Some (st_displayName f)) None;
                   r_avatarUrl := None |} in
              profile <- request (CallRegister req) (register env req) ;;
              login profile ;;
              onClose ;;
              resetForm
          | LoginMode =>
              let req :=
                {| l_email := st_email f; l_password := st_password f |} in
              profile <- request (CallLogin req) (authLogin env req) ;;
              login profile ;;
              onClose ;;
              resetForm
          end)
         (submitFailed (mode f)))
      (setIsLoading false).

End Handlers.

(** The requests of a kind among a list of calls. *)
Definition is_update (c : Call) : bool :=
  match c with CallUpdate _ _ => true | _ => false end.

Definition is_register (c : Call) : bool :=
  match c with CallRegister _ => true | _ => false end.

Definition is_login (c : Call) : bool :=
  match c with CallLogin _ => true | _ => false end.

Definition count (p : Call -> bool) (cs : list Call) : nat :=
  List.length (List.filter p cs).

End AuthModal.

(** ** [useClassroomAccessToken]: which token the Classroom calls use *)

Module ClassroomHook.

(** [session?.user] of next-auth, with the two fields the hook reads. *)
Record SessionUser : Type := mkSessionUser {
  accessToken : option jsstring;
  provider : option jsstring
}.

(** [useSession().data]: absent, or with or without a [user]. *)
Definition SessionData : Type := option (option SessionUser).

(** The hook's two [useState] cells. *)
Record HookState : Type := mkHookState {
  storedToken : option jsstring;
  refreshKey : nat
}.

Definition initial : HookState := {| storedToken := None; refreshKey := 0 |}.

(** What the hook returns to its callers on a render. *)
Record Resolved : Type := mkResolved {
  r_accessToken : option jsstring;
  hasAccess : bool;
  isGoogleUser : bool
}.

(** [(session?.user as any)?.accessToken]. *)
Definition sessionToken (session : SessionData) : option jsstring :=
  match session with
  | Some (Some u) => accessToken u
  | _ => None
  end.

(** [refreshToken]; the argument is what [getClassroomToken()] of
    [@/lib/classroomToken] reads from local storage at that moment. *)
Definition refreshToken (getClassroomToken : option jsstring) (h : HookState)
  : HookState :=
  {| storedToken := getClassroomToken; refreshKey := refreshKey h + 1 |}.

(** What the effect of the hook reacts to. *)
Inductive Event : Type :=
| Mounted
| StorageChanged (key : option jsstring)
| ClassroomAuthSuccess.

(** The effect's handlers. *)
Definition handle (getClassroomToken : option jsstring) (e : Event)
  (h : HookState) : HookState :=
  match e with
  | Mounted => refreshToken getClassroomToken h
  | StorageChanged key =>
      if opt_str_eqb key (Some (lit "classroom_access_token"))
      then refreshToken getClassroomToken h
      else h
  | ClassroomAuthSuccess => refreshToken getClassroomToken h
  end.

(** The values computed on a render from the session and the cells. *)
Definition useClassroomAccessToken (session : SessionData) (h : HookState)
  : Resolved :=
  let accessToken := or_else (storedToken h) (sessionToken session) in
  {| r_accessToken := accessToken;
     hasAccess := truthy accessToken;
     isGoogleUser :=
       match session with
       | Some (Some u) => opt_str_eqb (provider u) (Some (lit "google"))
       | _ => false
       end |}.

End ClassroomHook.

(** ** [filterCoursesByName] of [lib/classroomApi] *)

Module ClassroomApi.

Inductive CourseState : Type :=
| ACTIVE | ARCHIVED | PROVISIONED | DECLINED | SUSPENDED.

(** [interface ClassroomCourse]. *)
Record ClassroomCourse : Type := mkCourse {
  id : jsstring;
  name : jsstring;
  description : option jsstring;
  descriptionHeading : option jsstring;
  room : option jsstring;
  ownerId : jsstring;
  creationTime : jsstring;
  updateTime : jsstring;
  enrollmentCode : option jsstring;
  courseState : CourseState;
  alternateLink : option jsstring
}.

(** [String.prototype.toLowerCase] restricted to ASCII text, where it
    is the shift of [A-Z]; used to run the filter on concrete courses. *)
Definition asciiLower (s : jsstring) : jsstring :=
  List.map (fun c => if in_range "A" "Z" c then (c + 32)%N else c) s.

(** A subsequence: some elements dropped, order kept. *)
Inductive Subseq {A : Type} : list A -> list A -> Prop :=
| Subseq_nil : Subseq [] []
| Subseq_skip x l1 l2 : Subseq l1 l2 -> Subseq l1 (x :: l2)
| Subseq_keep x l1 l2 : Subseq l1 l2 -> Subseq (x :: l1) (x :: l2).

Section Filter.

(** [String.prototype.toLowerCase]; its Unicode case tables belong to the
    JavaScript runtime, so it is a parameter of the model. *)
Variable toLowerCase : jsstring -> jsstring.

(** [field?.toLowerCase().includes(term)], [undefined] counting as false. *)
Definition opt_lower_includes (field : option jsstring) (term : jsstring)
  : bool :=
  match field with
  | Some s => includes (toLowerCase s) term
  | None => false
  end.

(** The predicate handed to [courses.filter]. *)
Definition course_matches (term : jsstring) (course : ClassroomCourse) : bool :=
  includes (toLowerCase (name course)) term
  || opt_lower_includes (description course) term
  || opt_lower_includes (descriptionHeading course) term.

Definition filterCoursesByName (courses : list ClassroomCourse)
  (searchTerm : jsstring) : list ClassroomCourse :=
  if negb (truthy (Some (trim searchTerm))) then courses
  else
    let term := toLowerCase searchTerm in
    List.filter (course_matches term) courses.

(** The reading in which the fields are searched as they are, for the
    lowercased term. *)
Definition field_contains_lowered (searchTerm : jsstring)
  (course : ClassroomCourse) : bool :=
  includes (name course) (toLowerCase searchTerm)
  || match description course with
     | Some s => includes s (toLowerCase searchTerm)
     | None => false
     end
  || match descriptionHeading course with
     | Some s => includes s (toLowerCase searchTerm)
     | None => false
     end.

(** A course matches the search ignoring case: the lowercased name,
    description or description heading contains the lowercased term. *)
Definition matches_ignoring_case (searchTerm : jsstring)
  (course : ClassroomCourse) : Prop :=
  includes (toLowerCase (name course)) (toLowerCase searchTerm) = true
  \/ (exists d, description course = Some d
       /\ includes (toLowerCase d) (toLowerCase searchTerm) = true)
  \/ (exists d, descriptionHeading course = Some d
       /\ includes (toLowerCase d) (toLowerCase searchTerm) = true).

End Filter.

(** The search term is empty or consists of white space only. *)
Definition blank (s : jsstring) : bool := forallb is_space s.

End ClassroomApi.

(** ** Concrete inputs used by the examples of Part II *)

Module Sample.

Import AuthModal.

(** The identity of the spec's first scenario. *)
Definition aliceInfo : UserInfo :=
  {| ui_email := lit "a@x.com"; ui_name := Some (lit "Alice");
     ui_picture := Some (lit "http://img") |}.

(** The identity and the stored profile of the spec's second scenario. *)
Definition bobInfo : UserInfo :=
  {| ui_email := lit "b@x.com"; ui_name := Some (lit "Bob");
     ui_picture := Some (lit "http://img") |}.

Definition bobProfile : AuthStore.Profile :=
  {| AuthStore.id := lit "42"; AuthStore.email := lit "b@x.com";
     AuthStore.displayName := Some (lit "Bob");
     AuthStore.avatarUrl := None; AuthStore.provider := None |}.

Definition aliceProfile : AuthStore.Profile :=
  {| AuthStore.id := lit "43"; AuthStore.email := lit "a@x.com";
     AuthStore.displayName := Some (lit "Alice");
     AuthStore.avatarUrl := Some (lit "http://img");
     AuthStore.provider := None |}.

(** An environment whose services answer the same whatever is asked. *)
Definition scripted (info : UserInfo)
  (found : Outcome (option AuthStore.Profile))
  (updated registered authenticated : Outcome AuthStore.Profile) : Env :=
  {| googleUserInfo := fun _ =>
       Returned {| ok := true; json := Returned info |};
     getByEmail := fun _ _ => found;
     update := fun _ _ => updated;
     register := fun _ => registered;
     authLogin := fun _ => authenticated;
     random := fun _ => JsMath.mkDraw [18%N] |}.

Definition serverError : Outcome (option AuthStore.Profile) :=
  Threw (ErrorObj (lit "API Error: 500 Internal Server Error")).

Definition notFound : Outcome (option AuthStore.Profile) :=
  Threw (ErrorObj (lit "API Error: 404 Not Found")).

Definition unreachable {A : Type} : Outcome A :=
  Threw (ErrorObj (lit "Failed to fetch")).

(** The modal as it opens, with the given mode and inputs, nobody
    signed in and nothing sent yet. *)
Definition opened (m : Mode) (email password : jsstring) : World :=
  {| session := AuthStore.initial;
     form := {| mode := m; st_email := email; st_password := password;
                st_displayName := []; isLoading := false;
                isGoogleLoading := false; error := None |};
     closed := 0;
     calls := [] |}.

(** The modal just opened in login mode with empty inputs. *)
Definition fresh : World := opened LoginMode [] [].

(** The lookup fails with a server error. *)
Definition env_lookup_down : Env :=
  scripted aliceInfo serverError unreachable unreachable unreachable.

(** Bob has a profile without avatar; the avatar update fails. *)
Definition env_bob_known : Env :=
  scripted bobInfo (Returned (Some bobProfile)) unreachable unreachable
    unreachable.

(** Alice has no profile; registration returns her new profile. *)
Definition env_alice_new : Env :=
  scripted aliceInfo notFound unreachable (Returned aliceProfile) unreachable.

(** Alice has no profile; the backend is unreachable when registering. *)
Definition env_alice_new_down : Env :=
  scripted aliceInfo notFound unreachable unreachable unreachable.

(** The backend authenticates Alice. *)
Definition env_login_ok : Env :=
  scripted aliceInfo notFound unreachable unreachable (Returned aliceProfile).

(** A browser session signed in with Google, carrying the token ["T"]. *)
Definition googleSession : ClassroomHook.SessionData :=
  Some (Some {| ClassroomHook.accessToken := Some (lit "T");
                ClassroomHook.provider := Some (lit "google") |}).

(** The hook after a refresh that found the stored token ["S"]. *)
Definition hookWithStored : ClassroomHook.HookState :=
  ClassroomHook.refreshToken (Some (lit "S")) ClassroomHook.initial.

End Sample.

(** A course named in capitals, and the search for it in lower case. *)
Definition math101 : ClassroomApi.ClassroomCourse :=
  {| ClassroomApi.id := lit "c1";
     ClassroomApi.name := lit "MATH 101";
     ClassroomApi.description := None;
     ClassroomApi.descriptionHeading := None;
     ClassroomApi.room := None;
     ClassroomApi.ownerId := lit "t1";
     ClassroomApi.creationTime := lit "2024-01-01T00:00:00Z";
     ClassroomApi.updateTime := lit "2024-01-01T00:00:00Z";
     ClassroomApi.enrollmentCode := None;
     ClassroomApi.courseState := ClassroomApi.ACTIVE;
     ClassroomApi.alternateLink := None |}.

(** ** The session store seen by its readers *)

Module AuthStoreOps.

Import AuthStore.

(** The value an operation writes to [user], if it writes one. *)
Definition writes_user (a : Action) : option (option Profile) :=
  match a with
  | SetUser u => Some u
  | Login u => Some (Some u)
  | Logout => Some None
  | SetAuthLoading _ | SetAuthError _ => None
  end.

(** [isAuthenticated && user], the test of [Navbar] and of the header of
    [HomePage] before they show the user menu. *)
Definition showsUserMenu (s : AuthState) : bool :=
  isAuthenticated s && not_not (user s).

(** [!isAuthenticated], the test of [HomePage]'s main area before it
    shows the welcome screen instead of the projects. *)
Definition showsWelcome (s : AuthState) : bool := negb (isAuthenticated s).

End AuthStoreOps.

(** ** [hooks/useClassroomApi]: the effect, the queries and the gate *)

Module ClassroomQueries.

Import ClassroomHook.


(** The hook after a sequence of events, oldest first; each event comes
    with what [getClassroomToken()] would read when it fires. *)
Fixpoint run (evs : list (Event * option jsstring)) (h : HookState)
  : HookState :=
  match evs with
  | [] => h
  | (e, stored) :: evs' => run evs' (handle stored e h)
  end.


(** [s.slice(-n)]: the last [n] code units, all of [s] if it is shorter. *)
Definition slice_last (n : nat) (s : jsstring) : jsstring :=
  skipn (List.length s - n) s.

(** The options a hook hands to [useQuery], as far as the fetch is
    concerned: the key and whether the query may run. *)
Record QueryOptions : Type := mkQueryOptions {
  queryKey : list (option jsstring);
  enabled : bool
}.

(** [!!courseId] for a string. *)
Definition nonempty (s : jsstring) : bool := truthy (Some s).


(** [useCourseWork(courseId, enabled)]. *)
Definition useCourseWork (courseId : jsstring) (enabledArg : bool)
  (session : SessionData) (h : HookState) : QueryOptions :=
  let r := useClassroomAccessToken session h in
  {| queryKey := [Some (lit "classroom"); Some (lit "coursework");
                  Some courseId;
                  option_map (slice_last 10) (r_accessToken r)];
     enabled := enabledArg && nonempty courseId && hasAccess r |}.

(** [useCourseAnnouncements(courseId, enabled)]. *)
Definition useCourseAnnouncements (courseId : jsstring) (enabledArg : bool)
  (session : SessionData) (h : HookState) : QueryOptions :=
  let r := useClassroomAccessToken session h in
  {| queryKey := [Some (lit "classroom"); Some (lit "announcements");
                  Some courseId;
                  option_map (slice_last 10) (r_accessToken r)];
     enabled := enabledArg && nonempty courseId && hasAccess r |}.

(** [useCourseMaterials(courseId, enabled)]. *)
Definition useCourseMaterials (courseId : jsstring) (enabledArg : bool)
  (session : SessionData) (h : HookState) : QueryOptions :=
  let r := useClassroomAccessToken session h in
  {| queryKey := [Some (lit "classroom"); Some (lit "materials");
                  Some courseId;
                  option_map (slice_last 10) (r_accessToken r)];
     enabled := enabledArg && nonempty courseId && hasAccess r |}.

(** The [retry] option of the four queries:
    [error?.message?.includes('401') || error?.message?.includes('403')]
    stops the retries, otherwise [failureCount < 2]. *)
Definition retry (failureCount : nat) (error : Thrown) : bool :=
  if match error with
     | ErrorObj message =>
         includes message (lit "401") || includes message (lit "403")
     | OtherValue _ => false
     end
  then false
  else failureCount <? 2.

(** What [useHasClassroomAccess] returns (the session itself left out). *)
Record Access : Type := mkAccess {
  a_hasAccess : bool;
  a_isGoogleUser : bool;
  hasAccessToken : bool;
  a_hasStoredToken : bool;
  a_isLoading : bool
}.

(** [useHasClassroomAccess] on a render: [status] is the session status
    and [hasStoredToken] the hook's state cell, which holds the last
    answer of [hasValidClassroomToken()]. *)
Definition useHasClassroomAccess (session : SessionData) (status : jsstring)
  (hasStoredToken : bool) : Access :=
  let isGoogleUser :=
    match session with
    | Some (Some u) => opt_str_eqb (provider u) (Some (lit "google"))
    | _ => false
    end in
  let sessionAccessToken := truthy (sessionToken session) in
  {| a_hasAccess := (isGoogleUser && sessionAccessToken) || hasStoredToken;
     a_isGoogleUser := isGoogleUser;
     hasAccessToken := sessionAccessToken || hasStoredToken;
     a_hasStoredToken := hasStoredToken;
     a_isLoading := str_eqb status (lit "loading") |}.

End ClassroomQueries.

(** ** [lib/classroomApi]: the data, the fetchers, [extractMaterialInfo] *)

Module ClassroomData.

Inductive ShareMode : Type := UNKNOWN_SHARE_MODE | VIEW | EDIT | STUDENT_COPY.

(** The inner [driveFile] of a drive attachment. *)
Record DriveFile : Type := mkDriveFile {
  df_id : jsstring;
  df_title : jsstring;
  df_alternateLink : option jsstring;
  df_thumbnailUrl : option jsstring
}.

Record DriveAttachment : Type := mkDriveAttachment {
  inner_driveFile : option DriveFile;
  shareMode : option ShareMode
}.

Record YouTubeVideo : Type := mkYouTubeVideo {
  yt_id : jsstring;
  yt_title : jsstring;
  yt_alternateLink : option jsstring;
  yt_thumbnailUrl : option jsstring
}.

Record LinkAttachment : Type := mkLinkAttachment {
  url : jsstring;
  link_title : option jsstring;
  link_thumbnailUrl : option jsstring
}.

Record FormAttachment : Type := mkFormAttachment {
  formUrl : jsstring;
  responseUrl : option jsstring;
  form_title : option jsstring;
  form_thumbnailUrl : option jsstring
}.

(** [interface CourseMaterial]. *)
Record CourseMaterial : Type := mkCourseMaterial {
  driveFile : option DriveAttachment;
  youTubeVideo : option YouTubeVideo;
  link : option LinkAttachment;
  form : option FormAttachment
}.

Inductive PublishState : Type := PUBLISHED | DRAFT | DELETED.

Inductive WorkType : Type :=
| ASSIGNMENT | SHORT_ANSWER_QUESTION | MULTIPLE_CHOICE_QUESTION.

Record DueDate : Type := mkDueDate { year : Z; month : Z; day : Z }.

Record DueTime : Type := mkDueTime {
  hours : Z; minutes : Z; seconds : Z; nanos : Z
}.

(** [interface CourseWork]. *)
Record CourseWork : Type := mkCourseWork {
  cw_id : jsstring;
  cw_courseId : jsstring;
  cw_title : jsstring;
  cw_description : option jsstring;
  cw_materials : option (list CourseMaterial);
  cw_state : PublishState;
  cw_alternateLink : option jsstring;
  cw_creationTime : jsstring;
  cw_updateTime : jsstring;
  cw_dueDate : option DueDate;
  cw_dueTime : option DueTime;
  cw_workType : WorkType
}.

(** [interface CourseAnnouncement]. *)
Record CourseAnnouncement : Type := mkCourseAnnouncement {
  an_id : jsstring;
  an_courseId : jsstring;
  an_title : option jsstring;
  an_text : jsstring;
  an_description : option jsstring;
  an_materials : option (list CourseMaterial);
  an_state : PublishState;
  an_alternateLink : option jsstring;
  an_creationTime : jsstring;
  an_updateTime : jsstring
}.

(** [interface CourseWorkMaterial]. *)
Record CourseWorkMaterial : Type := mkCourseWorkMaterial {
  wm_id : jsstring;
  wm_courseId : jsstring;
  wm_title : jsstring;
  wm_description : option jsstring;
  wm_materials : option (list CourseMaterial);
  wm_state : PublishState;
  wm_alternateLink : option jsstring;
  wm_creationTime : jsstring;
  wm_updateTime : jsstring;
  wm_topicId : option jsstring
}.

(** What [extractMaterialInfo] returns. *)
Record MaterialInfo : Type := mkMaterialInfo {
  mi_title : jsstring;
  mi_url : option jsstring;
  mi_type : jsstring
}.

(** [a || b] where [a] may be missing and [b] is a string. *)
Definition or_string (a : option jsstring) (b : jsstring) : jsstring :=
  match or_else a (Some b) with
  | Some s => s
  | None => b
  end.

(** [material.driveFile?.driveFile]. *)
Definition drive_inner (material : CourseMaterial) : option DriveFile :=
  match driveFile material with
  | Some d => inner_driveFile d
  | None => None
  end.

Definition extractMaterialInfo (material : CourseMaterial) : MaterialInfo :=
  match drive_inner material with
  | Some f =>
      {| mi_title := df_title f; mi_url := df_alternateLink f;
         mi_type := lit "file" |}
  | None =>
  match youTubeVideo material with
  | Some v =>
      {| mi_title := yt_title v; mi_url := yt_alternateLink v;
         mi_type := lit "video" |}
  | None =>
  match link material with
  | Some l =>
      {| mi_title := or_string (link_title l) (url l);
         mi_url := Some (url l); mi_type := lit "link" |}
  | None =>
  match form material with
  | Some f =>
      {| mi_title := or_string (form_title f) (lit "Google Form");
         mi_url := Some (formUrl f); mi_type := lit "form" |}
  | None =>
      {| mi_title := lit "Unknown Material"; mi_url := None;
         mi_type := lit "unknown" |}
  end end end end.

(** The request of a fetcher: the address and the two headers. *)
Record Request : Type := mkRequest {
  req_url : jsstring;
  authorization : jsstring;
  contentType : jsstring
}.

(** The JSON documents of the Classroom API, with the keys read here. *)
Record ClassroomJson : Type := mkClassroomJson {
  courses : option (list ClassroomApi.ClassroomCourse);
  courseWork : option (list CourseWork);
  announcements : option (list CourseAnnouncement);
  courseWorkMaterial : option (list CourseWorkMaterial)
}.

(** The [Response] of a [fetch]. *)
Record Response : Type := mkResponse {
  ok : bool;
  status : N;
  statusText : jsstring;
  text : AuthModal.Outcome jsstring;
  json : AuthModal.Outcome ClassroomJson
}.

(** A number in a template literal: its decimal digits. *)
Definition decimal (n : N) : jsstring :=
  lit (NilZero.string_of_uint (N.to_uint n)).

(** [list || []]. *)
Definition or_empty {A : Type} (l : option (list A)) : list A :=
  match l with
  | Some l => l
  | None => []
  end.

Section Fetchers.

(** The network: what [fetch] answers to a request. *)
Variable net : Request -> AuthModal.Outcome Response.

Definition classroomGet (address accessToken : jsstring) : Request :=
  {| req_url := address;
     authorization := lit "Bearer " ++ accessToken;
     contentType := lit "application/json" |}.

(** The part the four fetchers share: send, and on a response that is
    not [ok] read its text and throw
    [`${what}${response.status} ${response.statusText}`]. *)
Definition fetchJson (address accessToken : jsstring) (what : string)
  : AuthModal.Outcome ClassroomJson :=
  match net (classroomGet address accessToken) with
  | AuthModal.Threw e => AuthModal.Threw e
  | AuthModal.Returned response =>
      if negb (ok response) then
        match text response with
        | AuthModal.Threw e => AuthModal.Threw e
        | AuthModal.Returned _ =>
            AuthModal.Threw (ErrorObj (lit what ++ decimal (status response)
                             ++ lit " " ++ statusText response))
        end
      else json response
  end.

Definition on_data {A : Type} (r : AuthModal.Outcome ClassroomJson)
  (k : ClassroomJson -> A) : AuthModal.Outcome A :=
  match r with
  | AuthModal.Returned data => AuthModal.Returned (k data)
  | AuthModal.Threw e => AuthModal.Threw e
  end.

Definition fetchClassroomCourses (accessToken : jsstring)
  : AuthModal.Outcome (list ClassroomApi.ClassroomCourse) :=
  on_data
    (fetchJson
       (lit "https://classroom.googleapis.com/v1/courses?courseStates=ACTIVE")
       accessToken "Failed to fetch courses: ")
    (fun data => or_empty (courses data)).

Definition fetchCourseWork (courseId accessToken : jsstring)
  : AuthModal.Outcome (list CourseWork) :=
  on_data
    (fetchJson
       (lit "https://classroom.googleapis.com/v1/courses/" ++ courseId
        ++ lit "/courseWork")
       accessToken "Failed to fetch coursework: ")
    (fun data => or_empty (courseWork data)).

(** [{ ...announcement, title: announcement.text,
       description: announcement.text }]. *)
Definition titled (a : CourseAnnouncement) : CourseAnnouncement :=
  {| an_id := an_id a; an_courseId := an_courseId a;
     an_title := Some (an_text a); an_text := an_text a;
     an_description := Some (an_text a); an_materials := an_materials a;
     an_state := an_state a; an_alternateLink := an_alternateLink a;
     an_creationTime := an_creationTime a; an_updateTime := an_updateTime a |}.

Definition fetchCourseAnnouncements (courseId accessToken : jsstring)
  : AuthModal.Outcome (list CourseAnnouncement) :=
  on_data
    (fetchJson
       (lit "https://classroom.googleapis.com/v1/courses/" ++ courseId
        ++ lit "/announcements")
       accessToken "Failed to fetch announcements: ")
    (fun data => List.map titled (or_empty (announcements data))).

Definition fetchCourseMaterials (courseId accessToken : jsstring)
  : AuthModal.Outcome (list CourseWorkMaterial) :=
  on_data
    (fetchJson
       (lit "https://classroom.googleapis.com/v1/courses/" ++ courseId
        ++ lit "/courseWorkMaterials")
       accessToken "Failed to fetch course materials: ")
    (fun data => or_empty (courseWorkMaterial data)).

End Fetchers.

End ClassroomData.

(** ** [SectionMaterialModal]: the item list and the selection guard *)

Module SectionMaterialModal.

Import ClassroomData.

Inductive ItemType : Type := assignment | material.

Inductive Tab : Type := all | assignments | materials.

(** [CourseWork | CourseWorkMaterial]. *)
Inductive Item : Type :=
| Work (w : CourseWork)
| Material (m : CourseWorkMaterial).

Definition item_id (i : Item) : jsstring :=
  match i with
  | Work w => cw_id w
  | Material m => wm_id m
  end.

Definition item_creationTime (i : Item) : jsstring :=
  match i with
  | Work w => cw_creationTime w
  | Material m => wm_creationTime m
  end.

(** [{ item, type }]. *)
Record Entry : Type := mkEntry { item : Item; type : ItemType }.

(** [type === t]. *)
Definition has_type (t : ItemType) (e : Entry) : bool :=
  match type e, t with
  | assignment, assignment => true
  | material, material => true
  | _, _ => false
  end.

(** [Array.prototype.sort(cmp)]: the stable sort that puts [a] before
    [b] when [cmp a b <= 0]; written as an insertion sort. *)
Fixpoint insert {A : Type} (cmp : A -> A -> Z) (x : A) (l : list A) : list A :=
  match l with
  | [] => [x]
  | y :: l' => if (0 <? cmp x y)%Z then y :: insert cmp x l' else x :: l
  end.

Fixpoint sort {A : Type} (cmp : A -> A -> Z) (l : list A) : list A :=
  match l with
  | [] => []
  | x :: l' => insert cmp x (sort cmp l')
  end.

Section Items.

(** [new Date(s).getTime()] for the time stamps the API delivers
    (milliseconds, an integer); a text that [Date] cannot parse is outside
    the model. *)
Variable getTime : jsstring -> Z.

(** The comparator of [allItems]: newest first. *)
Definition newest_first (a b : Entry) : Z :=
  (getTime (item_creationTime (item b))
   - getTime (item_creationTime (item a)))%Z.

(** [a] is at least as recent as [b]. *)
Definition not_older (a b : Entry) : Prop :=
  (getTime (item_creationTime (item b))
   <= getTime (item_creationTime (item a)))%Z.

Definition allItems (courseWork : list CourseWork)
  (materials : list CourseWorkMaterial) : list Entry :=
  let workItems :=
    List.map (fun i => {| item := Work i; type := assignment |}) courseWork in
  let materialItems :=
    List.map (fun i => {| item := Material i; type := material |}) materials in
  sort newest_first (workItems ++ materialItems).

Definition filteredItems (activeTab : Tab) (allItems : list Entry)
  : list Entry :=
  match activeTab with
  | assignments => List.filter (has_type assignment) allItems
  | materials => List.filter (has_type material) allItems
  | all => allItems
  end.

End Items.

(** The component's state cells and what it reported to its parent:
    the [onItemSelect] calls, and the number of [onClose] and [onBack]
    calls. *)
Record State : Type := mkState {
  activeTab : Tab;
  loadingItemId : option jsstring;
  selections : list Entry;
  closes : nat;
  backs : nat
}.

Definition opened : State :=
  {| activeTab := all; loadingItemId := None; selections := [];
     closes := 0; backs := 0 |}.

Definition handleItemSelect (e : Entry) (st : State) : State :=
  if truthy (loadingItemId st) then st
  else
    {| activeTab := activeTab st;
       loadingItemId := Some (item_id (item e));
       selections := selections st ++ [e];
       closes := closes st; backs := backs st |}.

(** [disabled={loadingItemId !== null}]. *)
Definition disabled (st : State) : bool :=
  match loadingItemId st with
  | Some _ => true
  | None => false
  end.

(** What is left of the selection guard: the selections reported so
    far, plus one if no item is loading. *)
Definition budget (st : State) : nat :=
  List.length (selections st) + (if disabled st then 0 else 1).

(** A click on an item: [onClick={disabled ? undefined : onSelect}]. *)
Definition clickItem (e : Entry) (st : State) : State :=
  if disabled st then st else handleItemSelect e st.

Definition handleClose (st : State) : State :=
  {| activeTab := activeTab st; loadingItemId := None;
     selections := selections st; closes := S (closes st);
     backs := backs st |}.

Definition handleBack (st : State) : State :=
  {| activeTab := activeTab st; loadingItemId := None;
     selections := selections st; closes := closes st;
     backs := S (backs st) |}.

Definition setActiveTab (t : Tab) (st : State) : State :=
  {| activeTab := t; loadingItemId := loadingItemId st;
     selections := selections st; closes := closes st; backs := backs st |}.

Inductive UiEvent : Type :=
| Click (e : Entry)
| Close
| Back
| SelectTab (t : Tab).

Definition step (st : State) (ev : UiEvent) : State :=
  match ev with
  | Click e => clickItem e st
  | Close => handleClose st
  | Back => handleBack st
  | SelectTab t => setActiveTab t st
  end.

Definition run (evs : list UiEvent) (st : State) : State :=
  fold_left step evs st.

(** The event resets the selection guard. *)
Definition resets (ev : UiEvent) : bool :=
  match ev with
  | Close | Back => true
  | Click _ | SelectTab _ => false
  end.

(** [course?.id || '']. *)
Definition course_id_or_empty (course : option ClassroomApi.ClassroomCourse)
  : jsstring :=
  match course with
  | Some c => or_string (Some (ClassroomApi.id c)) []
  | None => []
  end.

(** [isOpen && !!course]. *)
Definition open_with_course (isOpen : bool)
  (course : option ClassroomApi.ClassroomCourse) : bool :=
  isOpen && match course with Some _ => true | None => false end.

(** The coursework query of the modal:
    [useCourseWork(course?.id || '', isOpen && !!course)]. *)
Definition courseWorkQuery (isOpen : bool)
  (course : option ClassroomApi.ClassroomCourse)
  (session : ClassroomHook.SessionData) (h : ClassroomHook.HookState)
  : ClassroomQueries.QueryOptions :=
  ClassroomQueries.useCourseWork (course_id_or_empty course)
    (open_with_course isOpen course) session h.

(** The materials query of the modal. *)
Definition materialsQuery (isOpen : bool)
  (course : option ClassroomApi.ClassroomCourse)
  (session : ClassroomHook.SessionData) (h : ClassroomHook.HookState)
  : ClassroomQueries.QueryOptions :=
  ClassroomQueries.useCourseMaterials (course_id_or_empty course)
    (open_with_course isOpen course) session h.

End SectionMaterialModal.

(** ** [HomePage]: the project search and the creation of a project *)

Module HomePage.

(** The fields of a [Project], as the page builds one. *)
Record Project : Type := mkProject {
  id : jsstring;
  name : jsstring;
  description : option jsstring;
  color : jsstring;
  userId : jsstring;
  createdAt : jsstring;
  updatedAt : jsstring
}.

(** Argument of [api.projects.create]. *)
Record CreateReq : Type := mkCreateReq {
  c_name : jsstring;
  c_description : option jsstring;
  c_color : jsstring;
  c_userId : jsstring
}.

(** The calls to the graph store. *)
Inductive StoreCall : Type :=
| SetLoading (loading : bool)
| AddProject (p : Project)
| ToggleCreateProject (open : bool).

(** The page's input cells, its error, and what it sent so far to the
    graph store and to the backend. *)
Record Page : Type := mkPage {
  newProjectName : jsstring;
  newProjectDescription : jsstring;
  newProjectColor : jsstring;
  error : option jsstring;
  storeCalls : list StoreCall;
  requests : list CreateReq
}.

(** What one run of [handleCreateProject] consults outside the page. *)
Record Env : Type := mkEnv {
  create : CreateReq -> AuthModal.Outcome Project;
  randomUUID : jsstring;
  toISOString : nat -> jsstring
}.

Section Search.

Variable toLowerCase : jsstring -> jsstring.

(** The predicate of [filteredProjects]. *)
Definition project_matches (searchQuery : jsstring) (p : Project) : bool :=
  includes (toLowerCase (name p)) (toLowerCase searchQuery)
  || match description p with
     | Some d => includes (toLowerCase d) (toLowerCase searchQuery)
     | None => false
     end.

Definition filteredProjects (projects : list Project)
  (searchQuery : jsstring) : list Project :=
  List.filter (project_matches searchQuery) projects.

End Search.

Definition call (c : StoreCall) (pg : Page) : Page :=
  {| newProjectName := newProjectName pg;
     newProjectDescription := newProjectDescription pg;
     newProjectColor := newProjectColor pg; error := error pg;
     storeCalls := storeCalls pg ++ [c]; requests := requests pg |}.

Definition setError (e : option jsstring) (pg : Page) : Page :=
  {| newProjectName := newProjectName pg;
     newProjectDescription := newProjectDescription pg;
     newProjectColor := newProjectColor pg; error := e;
     storeCalls := storeCalls pg; requests := requests pg |}.

Definition sendCreate (req : CreateReq) (pg : Page) : Page :=
  {| newProjectName := newProjectName pg;
     newProjectDescription := newProjectDescription pg;
     newProjectColor := newProjectColor pg; error := error pg;
     storeCalls := storeCalls pg; requests := requests pg ++ [req] |}.

(** The three inputs back to [''], [''] and ['#8B5CF6']. *)
Definition clearInputs (pg : Page) : Page :=
  {| newProjectName := []; newProjectDescription := [];
     newProjectColor := lit "#8B5CF6"; error := error pg;
     storeCalls := storeCalls pg; requests := requests pg |}.

(** The tail both branches share: add, clear the inputs, close the form. *)
Definition added (p : Project) (pg : Page) : Page :=
  call (ToggleCreateProject false) (clearInputs (call (AddProject p) pg)).

(** [s.trim() || undefined]. *)
Definition trimmed_or_undefined (s : jsstring) : option jsstring :=
  or_else (Some (trim s)) None.

(** [user?.id], for the signed-in user of the session store. *)
Definition user_id (user : option AuthStore.Profile) : option jsstring :=
  option_map AuthStore.id user.

Definition handleCreateProject (env : Env) (user : option AuthStore.Profile)
  (pg : Page) : Page :=
  if negb (truthy (Some (trim (newProjectName pg))))
     || negb (truthy (user_id user))
  then pg
  else
    match user with
    | None => pg
    | Some u =>
        let req :=
          {| c_name := trim (newProjectName pg);
             c_description := trimmed_or_undefined (newProjectDescription pg);
             c_color := newProjectColor pg;
             c_userId := AuthStore.id u |} in
        let pg1 := sendCreate req (setError None (call (SetLoading true) pg)) in
        let pg2 :=
          match create env req with
          | AuthModal.Returned newProject => added newProject pg1
          | AuthModal.Threw _ =>
              let demoProject :=
                {| id := randomUUID env;
                   name := trim (newProjectName pg);
                   description :=
                     trimmed_or_undefined (newProjectDescription pg);
                   color := newProjectColor pg;
                   userId := AuthStore.id u;
                   createdAt := toISOString env 0;
                   updatedAt := toISOString env 1 |} in
              added demoProject pg1
          end in
        call (SetLoading false) pg2
    end.

(** The project [handleCreateProject] adds for the user [u]: the one
    the backend returned, or the local one when the call threw. *)
Definition project_to_add (env : Env) (u : AuthStore.Profile) (pg : Page)
  : Project :=
  match create env
          {| c_name := trim (newProjectName pg);
             c_description := trimmed_or_undefined (newProjectDescription pg);
             c_color := newProjectColor pg;
             c_userId := AuthStore.id u |} with
  | AuthModal.Returned newProject => newProject
  | AuthModal.Threw _ =>
      {| id := randomUUID env;
         name := trim (newProjectName pg);
         description := trimmed_or_undefined (newProjectDescription pg);
         color := newProjectColor pg;
         userId := AuthStore.id u;
         createdAt := toISOString env 0;
         updatedAt := toISOString env 1 |}
  end.

End HomePage.

(** ** What [handleSubmit] asks the backend *)

Module AuthModalOps.

Import AuthModal.

(** The answer to the one request [handleSubmit] sends for the form
    [f]: the authenticate request in login mode, the create-account
    request in sign-up mode. *)
Definition submit_answer (env : Env) (f : FormState)
  : Outcome AuthStore.Profile :=
  match mode f with
  | LoginMode =>
      authLogin env {| l_email := st_email f; l_password := st_password f |}
  | SignupMode =>
      register env
        {| r_email := st_email f; r_password := st_password f;
           r_displayName := or_else (Some (st_displayName f)) None;
           r_avatarUrl := None |}
  end.

(** Both checks of [handleSubmit] pass. *)
Definition valid_inputs (f : FormState) : bool :=
  validateEmail (st_email f) && validatePassword (st_password f).

(** The message [handleSubmit] shows for a thrown value, by cases. *)
Inductive shown_for (m : Mode) : Thrown -> jsstring -> Prop :=
| Shown_not_found_login message :
    m = LoginMode -> is_not_found message = true ->
    shown_for m (ErrorObj message)
      (lit "Account not found. Please sign up first.")
| Shown_not_found_signup message :
    m = SignupMode -> is_not_found message = true ->
    shown_for m (ErrorObj message)
      (lit "Registration failed. The server returned 404 - check if the API endpoint exists.")
| Shown_unreachable message :
    is_not_found message = false ->
    includes message (lit "Failed to fetch") = true ->
    shown_for m (ErrorObj message)
      (lit "Cannot connect to server. Please check if the backend is running.")
| Shown_raw message :
    is_not_found message = false ->
    includes message (lit "Failed to fetch") = false ->
    shown_for m (ErrorObj message) message
| Shown_other v :
    shown_for m (OtherValue v) (lit "Authentication failed").

End AuthModalOps.

(** ** Words used to state what the two validators accept *)

Module Validators.

(** A part of an address: not empty, with no white space and no ['@']. *)
Definition address_part (s : jsstring) : Prop :=
  s <> [] /\ Forall (fun c => is_space c = false /\ c <> 64%N) s.

(** ASCII letters and digits, by code unit. *)
Definition is_letter (c : char16) : Prop :=
  (97 <= c <= 122)%N \/ (65 <= c <= 90)%N.

Definition is_digit (c : char16) : Prop := (48 <= c <= 57)%N.

Definition is_lower_alnum (c : char16) : Prop :=
  (48 <= c <= 57)%N \/ (97 <= c <= 122)%N.

End Validators.

(** ** More concrete inputs for the examples *)

Module Sample2.

Import AuthModal.

(** The identity provider refuses the token. *)
Definition env_google_refuses : Env :=
  {| googleUserInfo := fun _ =>
       Returned {| ok := false; json := Sample.unreachable |};
     getByEmail := fun _ _ => Sample.notFound;
     update := fun _ _ => Sample.unreachable;
     register := fun _ => Sample.unreachable;
     authLogin := fun _ => Sample.unreachable;
     random := fun _ => JsMath.mkDraw [18%N] |}.

(** The lookup resolves with [null]. *)
Definition env_lookup_null : Env :=
  Sample.scripted Sample.aliceInfo (Returned None) Sample.unreachable
    Sample.unreachable Sample.unreachable.

(** The login form filled in by Alice. *)
Definition aliceLogin : World :=
  Sample.opened LoginMode (lit "a@x.com") (lit "secret1").

(** A session that carries a token but did not sign in with Google. *)
Definition githubSession : ClassroomHook.SessionData :=
  Some (Some {| ClassroomHook.accessToken := Some (lit "T");
                ClassroomHook.provider := Some (lit "github") |}).

(** A 401 answer of the Classroom API. *)
Definition unauthorized : ClassroomData.Response :=
  {| ClassroomData.ok := false; ClassroomData.status := 401%N;
     ClassroomData.statusText := lit "Unauthorized";
     ClassroomData.text := Returned (lit "{}");
     ClassroomData.json := Sample.unreachable |}.

Definition welcome : ClassroomData.CourseAnnouncement :=
  {| ClassroomData.an_id := lit "a1"; ClassroomData.an_courseId := lit "c1";
     ClassroomData.an_title := None; ClassroomData.an_text := lit "Welcome";
     ClassroomData.an_description := None;
     ClassroomData.an_materials := None;
     ClassroomData.an_state := ClassroomData.PUBLISHED;
     ClassroomData.an_alternateLink := None;
     ClassroomData.an_creationTime := lit "2024-01-01T00:00:00Z";
     ClassroomData.an_updateTime := lit "2024-01-01T00:00:00Z" |}.

(** An [ok] answer whose body holds one announcement. *)
Definition oneAnnouncement : ClassroomData.Response :=
  {| ClassroomData.ok := true; ClassroomData.status := 200%N;
     ClassroomData.statusText := lit "OK";
     ClassroomData.text := Returned (lit "{}");
     ClassroomData.json :=
       Returned {| ClassroomData.courses := None;
                   ClassroomData.courseWork := None;
                   ClassroomData.announcements := Some [welcome];
                   ClassroomData.courseWorkMaterial := None |} |}.

(** A material that is a link without a title. *)
Definition bareLink : ClassroomData.CourseMaterial :=
  {| ClassroomData.driveFile := None; ClassroomData.youTubeVideo := None;
     ClassroomData.link :=
       Some {| ClassroomData.url := lit "http://x";
               ClassroomData.link_title := None;
               ClassroomData.link_thumbnailUrl := None |};
     ClassroomData.form := None |}.

Definition reading : ClassroomData.CourseWorkMaterial :=
  {| ClassroomData.wm_id := lit "m1"; ClassroomData.wm_courseId := lit "c1";
     ClassroomData.wm_title := lit "Reading";
     ClassroomData.wm_description := None;
     ClassroomData.wm_materials := Some [bareLink];
     ClassroomData.wm_state := ClassroomData.PUBLISHED;
     ClassroomData.wm_alternateLink := None;
     ClassroomData.wm_creationTime := lit "2024-01-02T00:00:00Z";
     ClassroomData.wm_updateTime := lit "2024-01-02T00:00:00Z";
     ClassroomData.wm_topicId := None |}.

Definition readingEntry : SectionMaterialModal.Entry :=
  {| SectionMaterialModal.item := SectionMaterialModal.Material reading;
     SectionMaterialModal.type := SectionMaterialModal.material |}.

(** The modal once the reading has been clicked. *)
Definition readingLoading : SectionMaterialModal.State :=
  SectionMaterialModal.clickItem readingEntry SectionMaterialModal.opened.

(** The create form with a name typed in, padded with spaces. *)
Definition demoPage : HomePage.Page :=
  {| HomePage.newProjectName := lit "  Demo ";
     HomePage.newProjectDescription := [];
     HomePage.newProjectColor := lit "#3B82F6";
     HomePage.error := None;
     HomePage.storeCalls := [];
     HomePage.requests := [] |}.

Definition thesis : HomePage.Project :=
  {| HomePage.id := lit "p1"; HomePage.name := lit "Thesis";
     HomePage.description := Some (lit "Notes");
     HomePage.color := lit "#8B5CF6"; HomePage.userId := lit "43";
     HomePage.createdAt := lit "2024-01-01T00:00:00Z";
     HomePage.updatedAt := lit "2024-01-01T00:00:00Z" |}.

(** The backend cannot be reached when creating a project. *)
Definition env_offline : HomePage.Env :=
  {| HomePage.create := fun _ => Sample.unreachable;
     HomePage.randomUUID := lit "0000-uuid";
     HomePage.toISOString := fun _ => lit "2024-01-03T00:00:00.000Z" |}.

End Sample2.

(* ================================================================== *)
(** * Part II: properties                                              *)
(* ================================================================== *)

(** ** The session store *)

Section SessionStore.

Import AuthStore.

Lemma initial_tracks : flag_tracks_user initial.
Proof. reflexivity. Qed.

Lemma step_tracks (s : AuthState) (a : Action) :
  flag_tracks_user s -> flag_tracks_user (step s a).
Proof.
  unfold flag_tracks_user.
  destruct a as [u | b | e | u | ]; simpl; intro H; auto.
Qed.

Lemma run_tracks (acts : list Action) :
  forall s, flag_tracks_user s -> flag_tracks_user (run acts s).
Proof.
  unfold run.
  induction acts as [| a acts IH]; simpl; intros s H.
  - exact H.
  - apply IH, step_tracks, H.
Qed.

Lemma not_not_true_iff (u : option Profile) : not_not u = true <-> u <> None.
Proof.
  destruct u; simpl; split; intro H; congruence.
Qed.

(** C8. After any sequence of store operations ([setUser], [login],
    [logout], and also [setAuthLoading], [setAuthError]) run from the
    initial state, [isAuthenticated] is true exactly when [user] is not
    [null]; from any state, [setUser(null)] leaves the flag false and
    [setUser(p)] leaves it true. *)
Theorem isAuthenticated_iff_user_present :
  forall acts : list Action,
    (isAuthenticated (run acts initial) = true
     <-> user (run acts initial) <> None)
    /\ (forall s, isAuthenticated (setUser None s) = false)
    /\ (forall s p, isAuthenticated (setUser (Some p) s) = true).
Proof.
  intro acts. split; [| split]; try reflexivity.
  rewrite (run_tracks acts initial_tracks).
  apply not_not_true_iff.
Qed.

(** C9. [login] and [logout] write [user], [isAuthenticated] and set
    [authError] to [null], and keep [isAuthLoading]; [setUser] writes
    [user] and [isAuthenticated] only. *)
Theorem login_logout_clear_error_frame :
  forall (s : AuthState) (p : Profile) (u : option Profile),
    (user (login p s) = Some p /\ isAuthenticated (login p s) = true
     /\ authError (login p s) = None
     /\ isAuthLoading (login p s) = isAuthLoading s)
    /\ (user (logout s) = None /\ isAuthenticated (logout s) = false
        /\ authError (logout s) = None
        /\ isAuthLoading (logout s) = isAuthLoading s)
    /\ (user (setUser u s) = u /\ isAuthenticated (setUser u s) = not_not u
        /\ authError (setUser u s) = authError s
        /\ isAuthLoading (setUser u s) = isAuthLoading s).
Proof.
  intros s p u. repeat split.
Qed.

End SessionStore.

(** ** The Classroom access token *)

Section ClassroomToken.

Import ClassroomHook.

Lemma truthy_or_else_l (a b : option jsstring) :
  truthy a = true -> or_else a b = a.
Proof. unfold or_else. intros ->. reflexivity. Qed.

Lemma truthy_or_else_r (a b : option jsstring) :
  truthy a = false -> or_else a b = b.
Proof. unfold or_else. intros ->. reflexivity. Qed.

(** C6. With a stored token [S] (a non-empty string) the effective token
    is [S] whatever the session holds; with no stored token and a session
    token [T] it is [T]; with neither, [hasAccess] is false. *)
Theorem stored_token_wins :
  forall (session : SessionData) (h : HookState),
    (truthy (storedToken h) = true ->
     r_accessToken (useClassroomAccessToken session h) = storedToken h
     /\ hasAccess (useClassroomAccessToken session h) = true)
    /\ (truthy (storedToken h) = false ->
        truthy (sessionToken session) = true ->
        r_accessToken (useClassroomAccessToken session h)
          = sessionToken session
        /\ hasAccess (useClassroomAccessToken session h) = true)
    /\ (truthy (storedToken h) = false ->
        truthy (sessionToken session) = false ->
        hasAccess (useClassroomAccessToken session h) = false).
Proof.
  intros session h. unfold useClassroomAccessToken; simpl.
  split; [| split].
  - intro HS. rewrite truthy_or_else_l by exact HS. auto.
  - intros HS HT. rewrite truthy_or_else_r by exact HS. auto.
  - intros HS HT. rewrite truthy_or_else_r by exact HS. exact HT.
Qed.

End ClassroomToken.

(** ** String primitives *)

Section Strings.

Lemma str_eqb_eq (a b : jsstring) : str_eqb a b = true <-> a = b.
Proof.
  revert b. induction a as [| x a IH]; intros [| y b]; simpl;
    split; intro H; try congruence; try discriminate.
  - apply andb_prop in H. destruct H as [Hx Hab].
    apply N.eqb_eq in Hx. apply IH in Hab. congruence.
  - injection H as -> ->. rewrite N.eqb_refl. simpl. apply IH. reflexivity.
Qed.

Lemma opt_str_eqb_eq (a b : option jsstring) :
  opt_str_eqb a b = true <-> a = b.
Proof.
  destruct a as [a |], b as [b |]; simpl; split; intro H;
    try congruence; try discriminate.
  - apply str_eqb_eq in H. congruence.
  - injection H as ->. apply str_eqb_eq. reflexivity.
Qed.

Lemma truthy_iff (v : option jsstring) :
  truthy v = true <-> exists c s, v = Some (c :: s).
Proof.
  destruct v as [[| c s] |]; simpl; split; intro H;
    try discriminate; try (destruct H as (c' & s' & H); discriminate).
  - exists c, s. reflexivity.
  - reflexivity.
Qed.

Lemma startsWith_spec (s p : jsstring) :
  startsWith s p = true <-> exists rest, s = p ++ rest.
Proof.
  revert s. induction p as [| x p IH]; intros s; simpl.
  - split; [intros _; exists s; reflexivity | reflexivity].
  - destruct s as [| c s]; split; intro H; try discriminate.
    + destruct H as (r & H). discriminate.
    + apply andb_prop in H. destruct H as [Hx Hp].
      apply N.eqb_eq in Hx. apply IH in Hp. destruct Hp as (r & ->).
      exists r. congruence.
    + destruct H as (r & H). injection H as -> ->.
      rewrite N.eqb_refl. simpl. apply IH. exists r. reflexivity.
Qed.

(** [includes] finds exactly the substrings. *)
Lemma includes_spec (s sub : jsstring) :
  includes s sub = true <-> exists pre post, s = pre ++ sub ++ post.
Proof.
  induction s as [| c s IH]; simpl.
  - rewrite orb_false_r, startsWith_spec. split.
    + intros (r & H). exists [], r. exact H.
    + intros (pre & post & H). destruct pre; simpl in H.
      * exists post. exact H.
      * discriminate.
  - rewrite orb_true_iff, startsWith_spec, IH. split.
    + intros [(r & H) | (pre & post & H)].
      * exists [], r. exact H.
      * exists (c :: pre), post. simpl. congruence.
    + intros (pre & post & H). destruct pre as [| x pre]; simpl in H.
      * left. exists post. exact H.
      * right. injection H as _ H. exists pre, post. exact H.
Qed.

Lemma trimStart_nil_iff (s : jsstring) :
  trimStart s = [] <-> forallb is_space s = true.
Proof.
  induction s as [| c s IH]; simpl.
  - split; reflexivity.
  - destruct (is_space c); simpl.
    + exact IH.
    + split; discriminate.
Qed.

Lemma trimStart_head (s t : jsstring) (c : char16) :
  trimStart s = c :: t -> is_space c = false.
Proof.
  induction s as [| x s IH]; simpl; try discriminate.
  destruct (is_space x) eqn:E.
  - exact IH.
  - intro H. injection H as -> _. exact E.
Qed.

Lemma forallb_rev (p : char16 -> bool) (s : jsstring) :
  forallb p (rev s) = forallb p s.
Proof.
  induction s as [| c s IH]; simpl.
  - reflexivity.
  - rewrite forallb_app, IH. simpl. rewrite andb_true_r. apply andb_comm.
Qed.

(** [s.trim()] is [''] exactly when [s] has white space only. *)
Lemma trim_nil_iff (s : jsstring) :
  trim s = [] <-> forallb is_space s = true.
Proof.
  unfold trim, trimEnd. split.
  - intro H.
    assert (Hr : trimStart (rev (trimStart s)) = []).
    { rewrite <- (rev_involutive (trimStart _)), H. reflexivity. }
    apply trimStart_nil_iff in Hr. rewrite forallb_rev in Hr.
    destruct (trimStart s) as [| c t] eqn:E.
    + apply trimStart_nil_iff, E.
    + apply trimStart_head in E. simpl in Hr. rewrite E in Hr. discriminate.
  - intro H. apply trimStart_nil_iff in H. rewrite H. reflexivity.
Qed.

Lemma blank_trim_falsy (s : jsstring) :
  negb (truthy (Some (trim s))) = ClassroomApi.blank s.
Proof.
  unfold ClassroomApi.blank.
  destruct (forallb is_space s) eqn:E.
  - apply trim_nil_iff in E. rewrite E. reflexivity.
  - destruct (trim s) as [| c t] eqn:T.
    + apply trim_nil_iff in T. congruence.
    + reflexivity.
Qed.

End Strings.

(** ** Course filtering *)

Section CourseFilter.

Import ClassroomApi.

Variable toLowerCase : jsstring -> jsstring.

Lemma course_matches_iff (searchTerm : jsstring) (c : ClassroomCourse) :
  course_matches toLowerCase (toLowerCase searchTerm) c = true
  <-> matches_ignoring_case toLowerCase searchTerm c.
Proof.
  unfold course_matches, matches_ignoring_case, opt_lower_includes.
  rewrite !orb_true_iff. split.
  - intros [[H | H] | H].
    + left. exact H.
    + right; left. destruct (description c) as [d |]; try discriminate.
      exists d. auto.
    + right; right. destruct (descriptionHeading c) as [d |]; try discriminate.
      exists d. auto.
  - intros [H | [(d & E & H) | (d & E & H)]].
    + left; left. exact H.
    + left; right. rewrite E. exact H.
    + right. rewrite E. exact H.
Qed.

Lemma filter_Subseq {A : Type} (p : A -> bool) (l : list A) :
  Subseq (List.filter p l) l.
Proof.
  induction l as [| x l IH]; simpl.
  - constructor.
  - destruct (p x); constructor; exact IH.
Qed.

(** Every subsequence whose elements pass [p] is kept by the filter. *)
Lemma Subseq_filter_max {A : Type} (p : A -> bool) (r l : list A) :
  Subseq r l -> Forall (fun x => p x = true) r -> Subseq r (List.filter p l).
Proof.
  induction 1 as [| x l1 l2 H IH | x l1 l2 H IH]; intro HF; simpl.
  - constructor.
  - destruct (p x); [constructor |]; apply IH, HF.
  - inversion HF as [| y ys Hx Hrest]; subst.
    rewrite Hx. apply Subseq_keep, IH, Hrest.
Qed.

Lemma blank_filter (courses : list ClassroomCourse) (searchTerm : jsstring) :
  filterCoursesByName toLowerCase courses searchTerm
  = if blank searchTerm then courses
    else List.filter (course_matches toLowerCase (toLowerCase searchTerm))
           courses.
Proof.
  unfold filterCoursesByName. rewrite blank_trim_falsy. reflexivity.
Qed.

(** C10 (amended). On an empty or white-space-only search term
    [filterCoursesByName] returns the course list itself.  On any other
    term it returns the courses that match ignoring case (the lowercased
    name, description or description heading contains the lowercased
    term), in their original order: the result is a subsequence of the
    input, all its courses match, and it contains every subsequence of
    the input made of matching courses. *)
Theorem filterCoursesByName_case_insensitive :
  forall (courses : list ClassroomCourse) (searchTerm : jsstring),
    (blank searchTerm = true ->
     filterCoursesByName toLowerCase courses searchTerm = courses)
    /\ (blank searchTerm = false ->
        let result := filterCoursesByName toLowerCase courses searchTerm in
        Subseq result courses
        /\ Forall (matches_ignoring_case toLowerCase searchTerm) result
        /\ (forall c, In c result <->
              In c courses /\ matches_ignoring_case toLowerCase searchTerm c)
        /\ (forall other,
              Subseq other courses ->
              Forall (matches_ignoring_case toLowerCase searchTerm) other ->
              Subseq other result)).
Proof.
  intros courses searchTerm. rewrite blank_filter. split; intros ->.
  - reflexivity.
  - cbv zeta. split; [| split; [| split]].
    + apply filter_Subseq.
    + apply Forall_forall. intros c Hc. apply filter_In in Hc.
      apply course_matches_iff, Hc.
    + intro c. rewrite filter_In, course_matches_iff. reflexivity.
    + intros other Hsub Hall. apply Subseq_filter_max; [exact Hsub |].
      apply Forall_forall. intros c Hc. apply course_matches_iff.
      rewrite Forall_forall in Hall. apply Hall, Hc.
Qed.

End CourseFilter.

(** C10 as stated fails: the search for ["math"] returns the course
    named ["MATH 101"], although none of its fields, taken as they are,
    contains the lowercased term ["math"]. *)
Lemma filter_keeps_uppercase_name :
  ClassroomApi.blank (lit "math") = false
  /\ ClassroomApi.asciiLower (lit "math") = lit "math"
  /\ ClassroomApi.filterCoursesByName ClassroomApi.asciiLower [math101]
       (lit "math") = [math101]
  /\ ClassroomApi.field_contains_lowered ClassroomApi.asciiLower (lit "math")
       math101 = false
  /\ List.filter
       (ClassroomApi.field_contains_lowered ClassroomApi.asciiLower
          (lit "math")) [math101] = [].
Proof. repeat split. Qed.

Lemma filterCoursesByName_case_insensitive_witness :
  ClassroomApi.filterCoursesByName ClassroomApi.asciiLower [math101]
    (lit "  ") = [math101]
  /\ ClassroomApi.Subseq
       (ClassroomApi.filterCoursesByName ClassroomApi.asciiLower [math101]
          (lit "math")) [math101].
Proof.
  split.
  - exact (proj1 (filterCoursesByName_case_insensitive
                    ClassroomApi.asciiLower [math101] (lit "  ")) eq_refl).
  - exact (proj1 (proj2 (filterCoursesByName_case_insensitive
                    ClassroomApi.asciiLower [math101] (lit "math")) eq_refl)).
Defined.

(** ** The pattern matcher *)

Section RegexFacts.

Import Regex.

Lemma lang_cat_inv (r1 r2 : re) (s : jsstring) :
  lang (Cat r1 r2) s ->
  exists s1 s2, s = s1 ++ s2 /\ lang r1 s1 /\ lang r2 s2.
Proof.
  intro H. inversion H; subst. eexists _, _. repeat split; eassumption.
Qed.

Lemma lang_alt_inv (r1 r2 : re) (s : jsstring) :
  lang (Alt r1 r2) s -> lang r1 s \/ lang r2 s.
Proof. intro H. inversion H; subst; auto. Qed.

Lemma lang_cls_inv (p : char16 -> bool) (s : jsstring) :
  lang (Cls p) s -> exists c, s = [c] /\ p c = true.
Proof. intro H. inversion H; subst. eexists. split; eauto. Qed.

Lemma nullable_lang (r : re) : nullable r = true <-> lang r [].
Proof.
  induction r as [| | p | r1 IH1 r2 IH2 | r1 IH1 r2 IH2 | r IH]; simpl.
  - split; [discriminate | intro H; inversion H].
  - split; [constructor | reflexivity].
  - split; [discriminate | intro H; inversion H].
  - rewrite andb_true_iff, IH1, IH2. split.
    + intros [H1 H2]. apply (L_cat H1 H2).
    + intro H. apply lang_cat_inv in H. destruct H as (s1 & s2 & E & H1 & H2).
      symmetry in E. apply app_eq_nil in E. destruct E; subst. auto.
  - rewrite orb_true_iff, IH1, IH2. split.
    + intros [H | H]; [apply L_alt_l | apply L_alt_r]; exact H.
    + apply lang_alt_inv.
  - split; [constructor | reflexivity].
Qed.

(** A non-empty word of [r*] starts with a non-empty word of [r]. *)
Lemma star_cons (r : re) (c : char16) (s : jsstring) :
  lang (Star r) (c :: s) ->
  exists s1 s2, s = s1 ++ s2 /\ lang r (c :: s1) /\ lang (Star r) s2.
Proof.
  intro H. remember (Star r) as r' eqn:Er. remember (c :: s) as w eqn:Ew.
  revert c s Ew.
  induction H as [| | | | | | r0 s1 s2 H1 _ H2 IH2]; try discriminate.
  injection Er as ->. intros c s Ew.
  destruct s1 as [| x s1]; simpl in Ew.
  - apply IH2; [reflexivity | exact Ew].
  - injection Ew as -> <-. exists s1, s2. auto.
Qed.

Lemma cat_cons (r1 r2 : re) (c : char16) (s : jsstring) :
  lang (Cat r1 r2) (c :: s) <->
  (exists s1 s2, s = s1 ++ s2 /\ lang r1 (c :: s1) /\ lang r2 s2)
  \/ (lang r1 [] /\ lang r2 (c :: s)).
Proof.
  split.
  - intro H. apply lang_cat_inv in H. destruct H as (s1 & s2 & E & H1 & H2).
    destruct s1 as [| x s1]; simpl in E.
    + right. subst. auto.
    + injection E as -> ->. left. exists s1, s2. auto.
  - intros [(s1 & s2 & -> & H1 & H2) | [H1 H2]].
    + apply (L_cat H1 H2).
    + apply (L_cat H1 H2).
Qed.

Lemma deriv_lang (c : char16) (r : re) :
  forall s, lang (deriv c r) s <-> lang r (c :: s).
Proof.
  induction r as [| | p | r1 IH1 r2 IH2 | r1 IH1 r2 IH2 | r IH];
    intro s; simpl.
  - split; intro H; inversion H.
  - split; intro H; inversion H.
  - destruct (p c) eqn:E; split; intro H; inversion H; subst.
    + constructor. exact E.
    + constructor.
    + congruence.
  - assert (Hcat : lang (Cat (deriv c r1) r2) s <->
                   exists s1 s2, s = s1 ++ s2 /\ lang r1 (c :: s1) /\ lang r2 s2).
    { split.
      - intro H. apply lang_cat_inv in H.
        destruct H as (s1 & s2 & -> & H1 & H2).
        exists s1, s2. rewrite <- IH1. auto.
      - intros (s1 & s2 & -> & H1 & H2).
        apply L_cat; [apply IH1, H1 | exact H2]. }
    rewrite cat_cons.
    destruct (nullable r1) eqn:N.
    + apply nullable_lang in N. split.
      * intro H. apply lang_alt_inv in H. destruct H as [H | H].
        -- left. apply Hcat, H.
        -- right. split; [exact N | apply IH2, H].
      * intros [H | [_ H]].
        -- apply L_alt_l, Hcat, H.
        -- apply L_alt_r, IH2, H.
    + rewrite Hcat. split.
      * intro H. left. exact H.
      * intros [H | [H _]]; [exact H |].
        apply nullable_lang in H. congruence.
  - split.
    + intro H. apply lang_alt_inv in H.
      destruct H as [H | H]; [apply L_alt_l, IH1 | apply L_alt_r, IH2]; exact H.
    + intro H. apply lang_alt_inv in H.
      destruct H as [H | H]; [apply L_alt_l, IH1 | apply L_alt_r, IH2]; exact H.
  - split.
    + intro H. apply lang_cat_inv in H.
      destruct H as (s1 & s2 & -> & H1 & H2).
      apply IH in H1. apply (L_star_app H1 H2).
    + intro H. apply star_cons in H. destruct H as (s1 & s2 & -> & H1 & H2).
      apply L_cat; [apply IH, H1 | exact H2].
Qed.

(** The matcher decides membership in the language of the pattern. *)
Lemma fullmatch_lang (s : jsstring) :
  forall r, fullmatch r s = true <-> lang r s.
Proof.
  induction s as [| c s IH]; intro r; simpl.
  - apply nullable_lang.
  - rewrite IH. apply deriv_lang.
Qed.

Lemma lang_star_any (s : jsstring) : lang (Star any) s.
Proof.
  induction s as [| c s IH].
  - constructor.
  - apply (L_star_app (s1 := [c])); [constructor; reflexivity | exact IH].
Qed.

(** An unanchored one-character class is found where some unit of the
    string is in the class. *)
Lemma search_class (p : char16 -> bool) (s : jsstring) :
  search (Cls p) s = existsb p s.
Proof.
  apply eq_true_iff_eq. unfold search.
  rewrite fullmatch_lang, existsb_exists. split.
  - intro H. apply lang_cat_inv in H. destruct H as (s1 & s2 & -> & _ & H).
    apply lang_cat_inv in H. destruct H as (s3 & s4 & -> & H & _).
    apply lang_cls_inv in H. destruct H as (c & -> & Hp).
    exists c. split; [| exact Hp].
    apply in_or_app. right. left. reflexivity.
  - intros (c & Hin & Hp). apply in_split in Hin.
    destruct Hin as (l1 & l2 & ->).
    apply L_cat; [apply lang_star_any |].
    apply (L_cat (s1 := [c])); [constructor; exact Hp | apply lang_star_any].
Qed.

End RegexFacts.

(** ** The generated credential *)

Section Credential.

Import AuthModal Regex.

Lemma validatePassword_spec (password : jsstring) :
  validatePassword password
  = (6 <=? List.length password)
    && existsb (fun c => in_range "a" "z" c || in_range "A" "Z" c) password
    && existsb (in_range "0" "9") password.
Proof.
  unfold validatePassword, letter_re, digit_re.
  rewrite !search_class. reflexivity.
Qed.

Lemma drawn_char (d : JsMath.Draw) :
  charAt 2 (JsMath.toString36 d)
  = match JsMath.fraction36 d with
    | [] => []
    | x :: _ => [JsMath.digit36 x]
    end.
Proof.
  unfold JsMath.toString36. destruct (JsMath.fraction36 d); reflexivity.
Qed.

Lemma drawn_chars_length (ds : list JsMath.Draw) :
  List.length
    (join_empty (List.map (fun d => charAt 2 (JsMath.toString36 d)) ds))
  = List.length (List.filter nonzero ds).
Proof.
  unfold join_empty, nonzero.
  induction ds as [| d ds IH]; simpl.
  - reflexivity.
  - rewrite length_app, IH, drawn_char.
    destruct (JsMath.fraction36 d); reflexivity.
Qed.

(** The credential has one character per non-zero draw, and ['Aa1']. *)
Lemma randomPassword_length (rnd : nat -> JsMath.Draw) :
  List.length (randomPassword rnd) = nonzero_draws rnd + 3.
Proof.
  unfold randomPassword, nonzero_draws.
  rewrite length_app.
  rewrite <- (map_map rnd (fun d => charAt 2 (JsMath.toString36 d))).
  rewrite drawn_chars_length. reflexivity.
Qed.

Lemma nonzero_draws_le (rnd : nat -> JsMath.Draw) : nonzero_draws rnd <= 16.
Proof.
  unfold nonzero_draws.
  etransitivity; [apply filter_length_le |].
  rewrite length_map, length_seq. constructor.
Qed.

(** The suffix ['Aa1'] gives every credential a letter and a digit, so
    the policy accepts it exactly when it is long enough: when at least
    three of the sixteen draws are not [+0]. *)
Lemma randomPassword_valid_iff (rnd : nat -> JsMath.Draw) :
  validatePassword (randomPassword rnd) = true <-> 3 <= nonzero_draws rnd.
Proof.
  rewrite validatePassword_spec, randomPassword_length.
  unfold randomPassword. rewrite !existsb_app.
  replace (existsb (fun c => in_range "a" "z" c || in_range "A" "Z" c)
             (lit "Aa1")) with true by reflexivity.
  replace (existsb (in_range "0" "9") (lit "Aa1")) with true by reflexivity.
  rewrite !orb_true_r, !andb_true_r, Nat.leb_le. lia.
Qed.

(** When no draw is [+0] the credential has 19 characters and passes. *)
Lemma randomPassword_valid_nonzero (rnd : nat -> JsMath.Draw) :
  (forall i, i < 16 -> nonzero (rnd i) = true) ->
  List.length (randomPassword rnd) = 19
  /\ validatePassword (randomPassword rnd) = true.
Proof.
  intro H.
  assert (E : nonzero_draws rnd = 16).
  { unfold nonzero_draws.
    rewrite (forallb_filter_id nonzero (List.map rnd (seq 0 16))).
    - rewrite length_map, length_seq. reflexivity.
    - apply forallb_forall. intros d Hd. apply in_map_iff in Hd.
      destruct Hd as (i & <- & Hi). apply in_seq in Hi. apply H. lia. }
  split.
  - rewrite randomPassword_length, E. reflexivity.
  - apply randomPassword_valid_iff. rewrite E. lia.
Qed.

(** C5 (the code departs from it). The generated credential passes
    [validatePassword] exactly when at least three of the sixteen draws
    are not [+0], not for every sequence of draws: when [Math.random()]
    returns [+0], [(0).toString(36)] is ["0"] and [charAt(2)] is the empty
    string, so with sixteen such draws the credential is ['Aa1'], of
    length 3, and [validatePassword] rejects it. *)
Theorem randomPassword_zero_draws_rejected :
  (forall rnd,
     validatePassword (randomPassword rnd) = true <-> 3 <= nonzero_draws rnd)
  /\ nonzero_draws (fun _ => JsMath.mkDraw []) = 0
  /\ randomPassword (fun _ => JsMath.mkDraw []) = lit "Aa1"
  /\ List.length (randomPassword (fun _ => JsMath.mkDraw [])) = 3
  /\ validatePassword (randomPassword (fun _ => JsMath.mkDraw [])) = false.
Proof.
  split.
  - exact randomPassword_valid_iff.
  - repeat split.
Qed.

End Credential.

(** ** Google login: reconciliation *)

Section Reconcile.

Import AuthModal.

Variable env : Env.

Lemma new_calls_app (w w' : World) (cs : list Call) :
  calls w' = calls w ++ cs -> new_calls w w' = cs.
Proof.
  unfold new_calls. intros ->.
  rewrite skipn_app, skipn_all, Nat.sub_diag. reflexivity.
Qed.

Lemma new_calls_ext (w : World) (s : AuthStore.AuthState) (f : FormState)
  (n : nat) (cs : list Call) :
  new_calls w {| session := s; form := f; closed := n;
                 calls := calls w ++ cs |} = cs.
Proof. apply new_calls_app. reflexivity. Qed.

Lemma needsSync_iff (ui : UserInfo) (p : AuthStore.Profile) :
  needsSync ui p = true <->
  (exists c s, ui_picture ui = Some (c :: s))
  /\ AuthStore.avatarUrl p <> ui_picture ui.
Proof.
  unfold needsSync. rewrite andb_true_iff, negb_true_iff, truthy_iff.
  split; intros [H1 H2]; split; try exact H1.
  - intro E. apply opt_str_eqb_eq in E. congruence.
  - destruct (opt_str_eqb (AuthStore.avatarUrl p) (ui_picture ui)) eqn:E;
      [| reflexivity].
    apply opt_str_eqb_eq in E. contradiction.
Qed.

Ltac run_block :=
  unfold reconcile, lookup, syncAvatar, after_sync, sync_calls,
    bind, try_catch, finally, request, ret, throw, login, modify_session,
    onClose, resetForm, setError, setIsGoogleLoading, setIsLoading,
    read_form, modify_form, sent;
  simpl.

(** The existing-profile path, end to end. *)
Lemma reconcile_found (ui : UserInfo) (w : World) (p : AuthStore.Profile) :
  getByEmail env (ui_email ui) true = Returned (Some p) ->
  reconcile env ui w
  = (Returned tt,
     {| session := AuthStore.login (with_google (after_sync env ui p))
                     (session w);
        form := emptied (form w);
        closed := S (closed w);
        calls := calls w ++ CallGetByEmail (ui_email ui) true
                           :: sync_calls ui p |}).
Proof.
  intro H. run_block. rewrite H. simpl.
  destruct (needsSync ui p); simpl.
  - destruct (update env (AuthStore.id p) (synced p (ui_picture ui)));
      simpl; rewrite <- app_assoc; reflexivity.
  - reflexivity.
Qed.

(** The lookup answered without a profile and without an error: nothing
    more happens. *)
Lemma reconcile_nothing (ui : UserInfo) (w : World) :
  getByEmail env (ui_email ui) true = Returned None ->
  reconcile env ui w = (Returned tt, sent (CallGetByEmail (ui_email ui) true) w).
Proof. intro H. run_block. rewrite H. reflexivity. Qed.

(** The new-profile path, end to end. *)
Lemma reconcile_not_found (ui : UserInfo) (w : World) (e : Thrown) :
  getByEmail env (ui_email ui) true = Threw e ->
  is_not_found (errorMsg_of e) = true ->
  reconcile env ui w
  = match register env (autoRegisterReq env ui) with
    | Returned newProfile =>
        (Returned tt,
         {| session := AuthStore.login (with_google newProfile) (session w);
            form := emptied (form w);
            closed := S (closed w);
            calls := calls w ++ [CallGetByEmail (ui_email ui) true;
                                 CallRegister (autoRegisterReq env ui)] |})
    | Threw e' =>
        (Threw e',
         {| session := session w; form := form w; closed := closed w;
            calls := calls w ++ [CallGetByEmail (ui_email ui) true;
                                 CallRegister (autoRegisterReq env ui)] |})
    end.
Proof.
  intros H N. run_block. rewrite H. simpl. rewrite N. simpl.
  destruct (register env (autoRegisterReq env ui)); simpl;
    rewrite <- app_assoc; reflexivity.
Qed.

(** The lookup failed for another reason: the flow stops there. *)
Lemma reconcile_lookup_failed (ui : UserInfo) (w : World) (e : Thrown) :
  getByEmail env (ui_email ui) true = Threw e ->
  is_not_found (errorMsg_of e) = false ->
  reconcile env ui w
  = (Threw (ErrorObj (lit "Could not verify account status. Please try again.")),
     sent (CallGetByEmail (ui_email ui) true) w).
Proof. intros H N. run_block. rewrite H. simpl. rewrite N. reflexivity. Qed.

(** The whole [onSuccess] handler when the user info was fetched: the
    bookkeeping around [reconcile]. *)
Lemma onSuccess_reconcile (tok : jsstring) (ui : UserInfo) (w : World) :
  googleUserInfo env tok = Returned {| ok := true; json := Returned ui |} ->
  onSuccess env tok w
  = let w1 := sent (CallUserInfo tok)
                (snd (setError None (snd (setIsGoogleLoading true w)))) in
    match reconcile env ui w1 with
    | (Returned _, w2) => (Returned tt, snd (setIsGoogleLoading false w2))
    | (Threw (ErrorObj message), w2) =>
        (Returned tt,
         snd (setIsGoogleLoading false (snd (setError (Some message) w2))))
    | (Threw (OtherValue _), w2) =>
        (Returned tt,
         snd (setIsGoogleLoading false
                (snd (setError (Some (lit "Failed to login with Google")) w2))))
    end.
Proof.
  intro H. unfold onSuccess.
  unfold bind at 1 2 3 4 5, finally, try_catch, request, ret.
  simpl. rewrite H. simpl.
  match goal with
  | |- context [reconcile env ui ?w1] =>
      destruct (reconcile env ui w1) as [[[] | [m | v]] w2]
  end; reflexivity.
Qed.

(** C1. When the lookup by e-mail throws and its message contains
    neither ['404'] nor ['Not Found'], [reconcile] throws the error
    ['Could not verify account status. Please try again.'] having sent
    the lookup only: no create-account and no update-account request,
    and the session store is as it was.  The enclosing handler then shows
    that message and still leaves the session store unchanged. *)
Theorem lookup_failure_aborts :
  forall (ui : UserInfo) (w : World) (e : Thrown),
    getByEmail env (ui_email ui) true = Threw e ->
    includes (errorMsg_of e) (lit "404") = false ->
    includes (errorMsg_of e) (lit "Not Found") = false ->
    (fst (reconcile env ui w)
       = Threw (ErrorObj
           (lit "Could not verify account status. Please try again."))
     /\ new_calls w (snd (reconcile env ui w))
          = [CallGetByEmail (ui_email ui) true]
     /\ session (snd (reconcile env ui w)) = session w
     /\ closed (snd (reconcile env ui w)) = closed w)
    /\ (forall tok,
          googleUserInfo env tok
            = Returned {| ok := true; json := Returned ui |} ->
          new_calls w (snd (onSuccess env tok w))
            = [CallUserInfo tok; CallGetByEmail (ui_email ui) true]
          /\ session (snd (onSuccess env tok w)) = session w
          /\ error (form (snd (onSuccess env tok w)))
               = Some (lit "Could not verify account status. Please try again.")
          /\ isGoogleLoading (form (snd (onSuccess env tok w))) = false).
Proof.
  intros ui w e H N1 N2.
  assert (N : is_not_found (errorMsg_of e) = false).
  { unfold is_not_found. rewrite N1, N2. reflexivity. }
  split.
  - rewrite (reconcile_lookup_failed ui w H N). simpl.
    repeat split. apply new_calls_app. reflexivity.
  - intros tok F. rewrite (onSuccess_reconcile tok w F). cbv zeta.
    rewrite (reconcile_lookup_failed ui _ H N). simpl.
    repeat split. apply new_calls_app. simpl.
    rewrite <- app_assoc. reflexivity.
Qed.

Lemma sync_calls_count (ui : UserInfo) (p : AuthStore.Profile) :
  count is_update (sync_calls ui p) = (if needsSync ui p then 1 else 0)
  /\ count is_register (sync_calls ui p) = 0.
Proof. unfold sync_calls. destruct (needsSync ui p); split; reflexivity. Qed.

Lemma after_sync_cases (ui : UserInfo) (p : AuthStore.Profile) :
  after_sync env ui p = p
  \/ (needsSync ui p = true
      /\ (exists r, update env (AuthStore.id p) (synced p (ui_picture ui))
                    = Returned r)
      /\ after_sync env ui p = synced p (ui_picture ui)).
Proof.
  unfold after_sync. destruct (needsSync ui p); [| left; reflexivity].
  destruct (update env (AuthStore.id p) (synced p (ui_picture ui))) as [r | e].
  - right. repeat split. exists r. reflexivity.
  - left. reflexivity.
Qed.

(** One run of [reconcile] sends at most one request that is an update
    or a registration. *)
Lemma reconcile_one_write (ui : UserInfo) (w : World) :
  count is_update (new_calls w (snd (reconcile env ui w)))
  + count is_register (new_calls w (snd (reconcile env ui w))) <= 1.
Proof.
  destruct (getByEmail env (ui_email ui) true) as [[p |] | e] eqn:H.
  - rewrite (reconcile_found ui w H). simpl.
    rewrite new_calls_ext. unfold count, sync_calls.
    destruct (needsSync ui p); simpl; lia.
  - rewrite (reconcile_nothing ui w H). unfold sent. simpl.
    rewrite new_calls_ext. unfold count. simpl. lia.
  - destruct (is_not_found (errorMsg_of e)) eqn:N.
    + rewrite (reconcile_not_found ui w H N).
      destruct (register env (autoRegisterReq env ui)); simpl;
        rewrite new_calls_ext; unfold count; simpl; lia.
    + rewrite (reconcile_lookup_failed ui w H N). unfold sent. simpl.
      rewrite new_calls_ext. unfold count. simpl. lia.
Qed.

(** C2. When the lookup by e-mail returns a profile, [reconcile] sends
    no create-account request, signs the user in with the found profile
    carrying provider ['google'] (its avatar being the identity's when the
    avatar update succeeded) and returns; and in every run at most one
    request is an update-account or a create-account, never one of each. *)
Theorem existing_profile_never_registers :
  forall (ui : UserInfo) (w : World),
    let w' := snd (reconcile env ui w) in
    (count is_update (new_calls w w') + count is_register (new_calls w w') <= 1)
    /\ (forall p,
          getByEmail env (ui_email ui) true = Returned (Some p) ->
          count is_register (new_calls w w') = 0
          /\ fst (reconcile env ui w) = Returned tt
          /\ AuthStore.isAuthenticated (session w') = true
          /\ (AuthStore.user (session w') = Some (with_google p)
              \/ AuthStore.user (session w')
                 = Some (synced p (ui_picture ui)))
          /\ (exists u,
                AuthStore.user (session w') = Some u
                /\ AuthStore.id u = AuthStore.id p
                /\ AuthStore.email u = AuthStore.email p
                /\ AuthStore.displayName u = AuthStore.displayName p
                /\ AuthStore.provider u = Some (lit "google"))
          /\ closed w' = S (closed w)).
Proof.
  intros ui w. cbv zeta. split; [apply reconcile_one_write |].
  intros p H. rewrite (reconcile_found ui w H). simpl.
  rewrite new_calls_ext.
  split; [| split; [| split; [| split; [| split]]]]; try reflexivity.
  - unfold count. simpl. apply (proj2 (sync_calls_count ui p)).
  - destruct (after_sync_cases ui p) as [-> | (_ & _ & ->)]; auto.
  - exists (with_google (after_sync env ui p)).
    destruct (after_sync_cases ui p) as [-> | (_ & _ & ->)]; repeat split.
Qed.

(** C3 (amended). When the lookup by e-mail throws a not-found error,
    [reconcile] sends exactly one create-account request, carrying the
    identity's e-mail, name and picture and the generated password, and no
    update-account request.  If create-account returns a profile, the
    user is signed in with that profile and provider ['google'], so the
    session's e-mail is the identity's whenever the returned profile has
    it; if create-account throws, the error propagates and the session
    store is unchanged. *)
Theorem unknown_email_registers_once :
  forall (ui : UserInfo) (w : World) (e : Thrown),
    getByEmail env (ui_email ui) true = Threw e ->
    is_not_found (errorMsg_of e) = true ->
    let w' := snd (reconcile env ui w) in
    let req := {| r_email := ui_email ui;
                  r_password := randomPassword (random env);
                  r_displayName := ui_name ui;
                  r_avatarUrl := ui_picture ui |} in
    new_calls w w' = [CallGetByEmail (ui_email ui) true; CallRegister req]
    /\ count is_register (new_calls w w') = 1
    /\ count is_update (new_calls w w') = 0
    /\ (forall newProfile,
          register env req = Returned newProfile ->
          fst (reconcile env ui w) = Returned tt
          /\ AuthStore.isAuthenticated (session w') = true
          /\ AuthStore.user (session w') = Some (with_google newProfile)
          /\ (AuthStore.email newProfile = ui_email ui ->
              exists u, AuthStore.user (session w') = Some u
                        /\ AuthStore.email u = ui_email ui
                        /\ AuthStore.provider u = Some (lit "google")))
    /\ (forall e',
          register env req = Threw e' ->
          fst (reconcile env ui w) = Threw e' /\ session w' = session w).
Proof.
  intros ui w e H N. cbv zeta. rewrite (reconcile_not_found ui w H N).
  change {| r_email := ui_email ui;
            r_password := randomPassword (random env);
            r_displayName := ui_name ui;
            r_avatarUrl := ui_picture ui |} with (autoRegisterReq env ui).
  destruct (register env (autoRegisterReq env ui)) as [np | e0]; simpl;
    rewrite new_calls_ext;
    (split; [reflexivity | split; [reflexivity | split; [reflexivity |]]]).
  - split.
    + intros np' E. injection E as <-. repeat split.
      intro Em. exists (with_google np). repeat split. exact Em.
    + intros e' E. discriminate.
  - split.
    + intros np E. discriminate.
    + intros e' E. injection E as <-. split; reflexivity.
Qed.

(** C4. After a found profile, an update-account request is sent, once,
    exactly when the identity's picture is a non-empty string different
    from the profile's [avatarUrl]; it carries the profile's id, e-mail
    and name, the new picture and provider ['google'].  Whether that
    request succeeds or throws, [reconcile] returns with the user signed
    in: with the found profile and provider ['google'] if it threw (or
    was not sent), and with the new avatar as well if it succeeded. *)
Theorem avatar_sync_best_effort :
  forall (ui : UserInfo) (w : World) (p : AuthStore.Profile),
    getByEmail env (ui_email ui) true = Returned (Some p) ->
    let w' := snd (reconcile env ui w) in
    let merged :=
      {| AuthStore.id := AuthStore.id p;
         AuthStore.email := AuthStore.email p;
         AuthStore.displayName := AuthStore.displayName p;
         AuthStore.avatarUrl := ui_picture ui;
         AuthStore.provider := Some (lit "google") |} in
    (count is_update (new_calls w w') = 1 <->
       (exists c s, ui_picture ui = Some (c :: s))
       /\ AuthStore.avatarUrl p <> ui_picture ui)
    /\ count is_update (new_calls w w') <= 1
    /\ (forall i fields,
          In (CallUpdate i fields) (new_calls w w') ->
          i = AuthStore.id p /\ fields = merged)
    /\ fst (reconcile env ui w) = Returned tt
    /\ AuthStore.isAuthenticated (session w') = true
    /\ (forall err,
          update env (AuthStore.id p) merged = Threw err ->
          AuthStore.user (session w') = Some (with_google p))
    /\ (forall r,
          update env (AuthStore.id p) merged = Returned r ->
          AuthStore.user (session w')
          = Some (if needsSync ui p then merged else with_google p)).
Proof.
  intros ui w p H. cbv zeta. rewrite (reconcile_found ui w H). simpl.
  rewrite new_calls_ext.
  fold (synced p (ui_picture ui)).
  assert (Hc : count is_update
                 (CallGetByEmail (ui_email ui) true :: sync_calls ui p)
               = if needsSync ui p then 1 else 0).
  { unfold count. simpl. apply (proj1 (sync_calls_count ui p)). }
  rewrite Hc, <- needsSync_iff.
  split; [| split; [| split; [| split; [| split; [| split]]]]];
    try reflexivity.
  - destruct (needsSync ui p); split; congruence.
  - destruct (needsSync ui p); lia.
  - intros i fields [E | Hin]; [discriminate |].
    unfold sync_calls in Hin. destruct (needsSync ui p); [| contradiction].
    destruct Hin as [E | []]. injection E as <- <-. split; reflexivity.
  - intros err E. unfold after_sync. rewrite E.
    destruct (needsSync ui p); reflexivity.
  - intros r E. unfold after_sync. rewrite E.
    destruct (needsSync ui p); reflexivity.
Qed.

End Reconcile.

(** ** The e-mail / password form *)

Section Submit.

Import AuthModal.

Variable env : Env.

Ltac run_submit :=
  unfold handleSubmit, bind, try_catch, finally, request, ret, throw, login,
    modify_session, onClose, resetForm, setError, setIsLoading, read_form,
    modify_form, sent;
  simpl.

Lemma handleSubmit_bad_email (w : World) :
  validateEmail (st_email (form w)) = false ->
  new_calls w (snd (handleSubmit env w)) = []
  /\ session (snd (handleSubmit env w)) = session w
  /\ error (form (snd (handleSubmit env w)))
     = Some (lit "Please enter a valid email address").
Proof.
  intro H. run_submit. rewrite H. simpl.
  repeat split. apply new_calls_app. symmetry. apply app_nil_r.
Qed.

Lemma handleSubmit_bad_password (w : World) :
  validateEmail (st_email (form w)) = true ->
  validatePassword (st_password (form w)) = false ->
  new_calls w (snd (handleSubmit env w)) = []
  /\ session (snd (handleSubmit env w)) = session w
  /\ error (form (snd (handleSubmit env w)))
     = Some (lit "Password must be at least 6 characters with letters and numbers").
Proof.
  intros H1 H2. run_submit. rewrite H1, H2. simpl.
  repeat split. apply new_calls_app. symmetry. apply app_nil_r.
Qed.

Lemma handleSubmit_login_sent (w : World) :
  validateEmail (st_email (form w)) = true ->
  validatePassword (st_password (form w)) = true ->
  mode (form w) = LoginMode ->
  new_calls w (snd (handleSubmit env w))
  = [CallLogin {| l_email := st_email (form w);
                  l_password := st_password (form w) |}].
Proof.
  intros H1 H2 Hm. run_submit. rewrite H1, H2, Hm. simpl.
  destruct (authLogin env _) as [p | e]; simpl.
  - apply new_calls_app. reflexivity.
  - unfold submitFailed.
    destruct e as [m | v]; simpl;
      [destruct (is_not_found m); [| destruct (includes m _)] |];
      apply new_calls_app; reflexivity.
Qed.

Lemma handleSubmit_signup_sent (w : World) :
  validateEmail (st_email (form w)) = true ->
  validatePassword (st_password (form w)) = true ->
  mode (form w) = SignupMode ->
  new_calls w (snd (handleSubmit env w))
  = [CallRegister {| r_email := st_email (form w);
                     r_password := st_password (form w);
                     r_displayName :=
                       or_else (Some (st_displayName (form w))) None;
                     r_avatarUrl := None |}].
Proof.
  intros H1 H2 Hm. run_submit. rewrite H1, H2, Hm. simpl.
  destruct (register env _) as [p | e]; simpl.
  - apply new_calls_app. reflexivity.
  - unfold submitFailed.
    destruct e as [m | v]; simpl;
      [destruct (is_not_found m); [| destruct (includes m _)] |];
      apply new_calls_app; reflexivity.
Qed.

(** C7 (amended). [handleSubmit] applies the same two checks in login
    mode and in sign-up mode before any request: a malformed e-mail or a
    password failing the policy (length at least 6, a letter, a digit)
    stops the handler with an inline error, with no request sent and the
    session untouched; when both checks pass, login mode sends exactly the
    authenticate request with the typed e-mail and password, and sign-up
    mode exactly the create-account request. *)
Theorem handleSubmit_validates_both :
  forall w : World,
    let w' := snd (handleSubmit env w) in
    (validateEmail (st_email (form w)) = false ->
     new_calls w w' = [] /\ session w' = session w
     /\ error (form w') = Some (lit "Please enter a valid email address"))
    /\ (validateEmail (st_email (form w)) = true ->
        validatePassword (st_password (form w)) = false ->
        new_calls w w' = [] /\ session w' = session w
        /\ error (form w')
           = Some (lit "Password must be at least 6 characters with letters and numbers"))
    /\ (validateEmail (st_email (form w)) = true ->
        validatePassword (st_password (form w)) = true ->
        mode (form w) = LoginMode ->
        new_calls w w'
        = [CallLogin {| l_email := st_email (form w);
                        l_password := st_password (form w) |}])
    /\ (validateEmail (st_email (form w)) = true ->
        validatePassword (st_password (form w)) = true ->
        mode (form w) = SignupMode ->
        count is_register (new_calls w w') = 1
        /\ count is_login (new_calls w w') = 0).
Proof.
  intro w. cbv zeta. split; [| split; [| split]].
  - apply handleSubmit_bad_email.
  - apply handleSubmit_bad_password.
  - apply handleSubmit_login_sent.
  - intros H1 H2 Hm. rewrite (handleSubmit_signup_sent w H1 H2 Hm).
    split; reflexivity.
Qed.

End Submit.

(** ** The properties on the spec's scenarios *)

Section Scenarios.

Import AuthModal Sample.

(** The primitives on small inputs. *)
Example is_space_samples :
  List.map is_space [9; 13; 14; 32; 65; 160; 8200; 8203; 65279]%N
  = [true; true; false; true; false; true; true; false; true].
Proof. reflexivity. Qed.

Example trim_sample : trim (lit "  a b ") = lit "a b".
Proof. reflexivity. Qed.

Example includes_samples :
  includes (lit "API Error: 404 Not Found") (lit "404") = true
  /\ includes (lit "Failed to fetch") (lit "Not Found") = false
  /\ includes (lit "abc") [] = true.
Proof. repeat split. Qed.

Example toString36_samples :
  JsMath.toString36 (JsMath.mkDraw [18; 0; 35]%N) = lit "0.i0z"
  /\ charAt 2 (JsMath.toString36 (JsMath.mkDraw [18; 0; 35]%N)) = lit "i"
  /\ JsMath.toString36 (JsMath.mkDraw []) = lit "0"
  /\ charAt 2 (JsMath.toString36 (JsMath.mkDraw [])) = [].
Proof. repeat split. Qed.

Example validateEmail_samples :
  List.map (fun e => validateEmail (lit e))
    ["a@x.com"; "a@b.c"; "first.last@mail.example.org"; "a@b"; "a@@b.c";
     "a b@x.com"; "@x.com"; "a@x."; "a@.com"]%string
  = [true; true; true; false; false; false; false; false; false].
Proof. reflexivity. Qed.

Example validatePassword_samples :
  List.map (fun p => validatePassword (lit p))
    ["secret1"; "abc"; "abcdef"; "123456"; "a1b2c"; "Aa1"]%string
  = [true; false; false; false; false; false].
Proof. reflexivity. Qed.

Example randomPassword_sample :
  randomPassword (random env_alice_new) = lit "iiiiiiiiiiiiiiiiAa1".
Proof. reflexivity. Qed.

Lemma stored_token_wins_witness :
  ClassroomHook.r_accessToken
    (ClassroomHook.useClassroomAccessToken googleSession hookWithStored)
  = Some (lit "S")
  /\ ClassroomHook.r_accessToken
       (ClassroomHook.useClassroomAccessToken googleSession
          ClassroomHook.initial)
     = Some (lit "T")
  /\ ClassroomHook.hasAccess
       (ClassroomHook.useClassroomAccessToken None ClassroomHook.initial)
     = false.
Proof.
  split; [| split].
  - exact (proj1 (proj1 (stored_token_wins googleSession hookWithStored)
                    eq_refl)).
  - exact (proj1 (proj1 (proj2 (stored_token_wins googleSession
                                  ClassroomHook.initial))
                    eq_refl eq_refl)).
  - exact (proj2 (proj2 (stored_token_wins None ClassroomHook.initial))
             eq_refl eq_refl).
Defined.

Lemma lookup_failure_aborts_witness :
  getByEmail env_lookup_down (ui_email aliceInfo) true = serverError
  /\ includes (lit "API Error: 500 Internal Server Error") (lit "404") = false
  /\ includes (lit "API Error: 500 Internal Server Error") (lit "Not Found")
     = false
  /\ session (snd (reconcile env_lookup_down aliceInfo fresh)) = session fresh
  /\ new_calls fresh (snd (reconcile env_lookup_down aliceInfo fresh))
     = [CallGetByEmail (lit "a@x.com") true].
Proof.
  pose proof (@lookup_failure_aborts env_lookup_down aliceInfo fresh
                (ErrorObj (lit "API Error: 500 Internal Server Error"))
                eq_refl eq_refl eq_refl) as [(_ & Hcalls & Hsession & _) _].
  repeat split; assumption.
Defined.

Lemma existing_profile_never_registers_witness :
  getByEmail env_bob_known (ui_email bobInfo) true
  = Returned (Some bobProfile)
  /\ count is_register
       (new_calls fresh (snd (reconcile env_bob_known bobInfo fresh))) = 0
  /\ AuthStore.isAuthenticated
       (session (snd (reconcile env_bob_known bobInfo fresh))) = true.
Proof.
  pose proof (proj2 (@existing_profile_never_registers env_bob_known bobInfo
                       fresh) bobProfile eq_refl) as (H0 & _ & Hauth & _).
  repeat split; assumption.
Defined.

(** The second scenario of the spec: Bob's profile has no avatar, the
    identity brings one, and the update call throws. *)
Lemma avatar_sync_best_effort_witness :
  getByEmail env_bob_known (ui_email bobInfo) true
  = Returned (Some bobProfile)
  /\ count is_update
       (new_calls fresh (snd (reconcile env_bob_known bobInfo fresh))) <= 1
  /\ AuthStore.user (session (snd (reconcile env_bob_known bobInfo fresh)))
     = Some (with_google bobProfile).
Proof.
  pose proof (@avatar_sync_best_effort env_bob_known bobInfo fresh bobProfile
                eq_refl) as (_ & Hle & _ & _ & _ & Hthrew & _).
  split; [reflexivity | split; [exact Hle |]].
  exact (Hthrew (ErrorObj (lit "Failed to fetch")) eq_refl).
Defined.

(** The first scenario of the spec: Alice's e-mail is unknown. *)
Lemma unknown_email_registers_once_witness :
  getByEmail env_alice_new (ui_email aliceInfo) true = notFound
  /\ is_not_found (lit "API Error: 404 Not Found") = true
  /\ count is_register
       (new_calls fresh (snd (reconcile env_alice_new aliceInfo fresh))) = 1
  /\ AuthStore.user (session (snd (reconcile env_alice_new aliceInfo fresh)))
     = Some (with_google aliceProfile).
Proof.
  pose proof (@unknown_email_registers_once env_alice_new aliceInfo fresh
                (ErrorObj (lit "API Error: 404 Not Found")) eq_refl eq_refl)
    as (_ & Hone & _ & Hok & _).
  split; [reflexivity | split; [reflexivity | split; [exact Hone |]]].
  exact (proj1 (proj2 (proj2 (Hok aliceProfile eq_refl)))).
Defined.

(** C3 as stated fails: Alice's e-mail is unknown, the create-account
    request is sent once, the backend cannot be reached, and nobody is
    signed in. *)
Lemma registration_failure_leaves_no_session :
  getByEmail env_alice_new_down (ui_email aliceInfo) true = notFound
  /\ is_not_found (lit "API Error: 404 Not Found") = true
  /\ count is_register
       (new_calls fresh (snd (reconcile env_alice_new_down aliceInfo fresh)))
     = 1
  /\ fst (reconcile env_alice_new_down aliceInfo fresh)
     = Threw (ErrorObj (lit "Failed to fetch"))
  /\ AuthStore.user
       (session (snd (reconcile env_alice_new_down aliceInfo fresh))) = None
  /\ AuthStore.isAuthenticated
       (session (snd (reconcile env_alice_new_down aliceInfo fresh))) = false.
Proof. repeat split. Qed.

Lemma handleSubmit_validates_both_witness :
  validateEmail (lit "a@x.com") = true
  /\ validatePassword (lit "secret1") = true
  /\ new_calls (opened LoginMode (lit "a@x.com") (lit "secret1"))
       (snd (handleSubmit env_login_ok
               (opened LoginMode (lit "a@x.com") (lit "secret1"))))
     = [CallLogin {| l_email := lit "a@x.com"; l_password := lit "secret1" |}]
  /\ new_calls (opened LoginMode (lit "not-an-email") (lit "secret1"))
       (snd (handleSubmit env_login_ok
               (opened LoginMode (lit "not-an-email") (lit "secret1"))))
     = [].
Proof.
  split; [reflexivity | split; [reflexivity | split]].
  - exact (proj1 (proj2 (proj2 (@handleSubmit_validates_both env_login_ok
             (opened LoginMode (lit "a@x.com") (lit "secret1")))))
             eq_refl eq_refl eq_refl).
  - exact (proj1 (proj1 (@handleSubmit_validates_both env_login_ok
             (opened LoginMode (lit "not-an-email") (lit "secret1")))
             eq_refl)).
Defined.

(** C7 as stated fails: in login mode, with a well-formed e-mail and
    the password ["abc"], no authenticate request is sent although the
    backend would accept the user; the password error is shown instead. *)
Lemma login_rechecks_password :
  mode (form (opened LoginMode (lit "a@x.com") (lit "abc"))) = LoginMode
  /\ validateEmail (lit "a@x.com") = true
  /\ validatePassword (lit "abc") = false
  /\ new_calls (opened LoginMode (lit "a@x.com") (lit "abc"))
       (snd (handleSubmit env_login_ok
               (opened LoginMode (lit "a@x.com") (lit "abc"))))
     = []
  /\ AuthStore.user
       (session (snd (handleSubmit env_login_ok
                        (opened LoginMode (lit "a@x.com") (lit "abc")))))
     = None
  /\ error
       (form (snd (handleSubmit env_login_ok
                     (opened LoginMode (lit "a@x.com") (lit "abc")))))
     = Some (lit "Password must be at least 6 characters with letters and numbers").
Proof. repeat split. Qed.

End Scenarios.

(* ================================================================== *)
(** * Part III: further properties of the same sources                 *)
(* ================================================================== *)

(** ** The form's submit handler, end to end *)

Section SubmitOutcomes.

Import AuthModal AuthModalOps.

Variable env : Env.

Ltac run_submit :=
  unfold handleSubmit, bind, try_catch, finally, request, ret, throw, login,
    modify_session, onClose, resetForm, setError, setIsLoading, read_form,
    modify_form, sent;
  simpl.

(** The run of [handleSubmit] when both checks pass and the backend
    returns a profile. *)
Lemma handleSubmit_returned (w : World) (p : AuthStore.Profile) :
  valid_inputs (form w) = true ->
  submit_answer env (form w) = Returned p ->
  fst (handleSubmit env w) = Returned tt
  /\ session (snd (handleSubmit env w)) = AuthStore.login p (session w)
  /\ closed (snd (handleSubmit env w)) = S (closed w)
  /\ form (snd (handleSubmit env w))
     = {| mode := mode (form w); st_email := []; st_password := [];
          st_displayName := []; isLoading := false;
          isGoogleLoading := isGoogleLoading (form w); error := None |}.
Proof.
  unfold valid_inputs, submit_answer. intros V A.
  apply andb_prop in V. destruct V as [V1 V2].
  run_submit. rewrite V1, V2. simpl.
  destruct (mode (form w)); rewrite A; simpl; repeat split.
Qed.

(** The run of [handleSubmit] when both checks pass and the backend
    call throws. *)
Lemma handleSubmit_threw (w : World) (e : Thrown) :
  valid_inputs (form w) = true ->
  submit_answer env (form w) = Threw e ->
  exists message,
    shown_for (mode (form w)) e message
    /\ fst (handleSubmit env w) = Returned tt
    /\ session (snd (handleSubmit env w)) = session w
    /\ closed (snd (handleSubmit env w)) = closed w
    /\ form (snd (handleSubmit env w))
       = {| mode := mode (form w); st_email := st_email (form w);
            st_password := st_password (form w);
            st_displayName := st_displayName (form w); isLoading := false;
            isGoogleLoading := isGoogleLoading (form w);
            error := Some message |}.
Proof.
  unfold valid_inputs, submit_answer. intros V A.
  apply andb_prop in V. destruct V as [V1 V2].
  run_submit. rewrite V1, V2. simpl.
  destruct (mode (form w)) eqn:Hm; rewrite A; simpl;
    unfold submitFailed;
    (destruct e as [m | v];
     [ destruct (is_not_found m) eqn:N;
       [ | destruct (includes m (lit "Failed to fetch")) eqn:F ]
     | ]);
    run_submit; eexists; (split; [| repeat split]);
    constructor; solve [assumption | reflexivity].
Qed.

(** X1. [handleSubmit] never lets an exception escape: whatever the
    inputs and whatever the backend answers or throws, it returns; and
    once both checks have passed it always ends with the spinner off
    ([isLoading] false). *)
Theorem handleSubmit_never_throws :
  forall w : World,
    fst (handleSubmit env w) = Returned tt
    /\ (valid_inputs (form w) = true ->
        isLoading (form (snd (handleSubmit env w))) = false).
Proof.
  intro w. destruct (valid_inputs (form w)) eqn:V.
  - destruct (submit_answer env (form w)) as [p | e] eqn:A.
    + destruct (handleSubmit_returned w V A) as (R & _ & _ & F).
      split; [exact R |]. intros _. rewrite F. reflexivity.
    + destruct (handleSubmit_threw w V A) as (m & _ & R & _ & _ & F).
      split; [exact R |]. intros _. rewrite F. reflexivity.
  - split; [| discriminate].
    unfold valid_inputs in V. run_submit.
    destruct (validateEmail (st_email (form w))); simpl in *.
    + rewrite V. reflexivity.
    + reflexivity.
Qed.

(** X2. When both checks pass and the backend returns a profile (from
    authenticate in login mode, from create-account in sign-up mode), the
    user is signed in with exactly that profile (its provider is not
    touched, unlike in the Google flow), the store's error is cleared,
    the modal is closed once and the three inputs are emptied. *)
Theorem handleSubmit_signs_in_returned_profile :
  forall (w : World) (p : AuthStore.Profile),
    valid_inputs (form w) = true ->
    submit_answer env (form w) = Returned p ->
    let w' := snd (handleSubmit env w) in
    AuthStore.user (session w') = Some p
    /\ AuthStore.isAuthenticated (session w') = true
    /\ AuthStore.authError (session w') = None
    /\ closed w' = S (closed w)
    /\ st_email (form w') = [] /\ st_password (form w') = []
    /\ st_displayName (form w') = []
    /\ error (form w') = None
    /\ List.length (new_calls w w') = 1.
Proof.
  intros w p V A. cbv zeta.
  destruct (handleSubmit_returned w V A) as (_ & S0 & C & F).
  rewrite S0, C, F. simpl. repeat split.
  unfold valid_inputs in V. apply andb_prop in V. destruct V as [V1 V2].
  unfold submit_answer in A.
  destruct (mode (form w)) eqn:Hm.
  - rewrite (handleSubmit_login_sent env w V1 V2 Hm). reflexivity.
  - rewrite (handleSubmit_signup_sent env w V1 V2 Hm). reflexivity.
Qed.

(** X3. When both checks pass and the backend call throws, nobody is
    signed in (the session store is unchanged), the modal stays open and
    the typed e-mail, password and name are kept.  The message shown is:
    for an [Error] whose message contains ['404'] or ['Not Found'],
    'Account not found...' in login mode and 'Registration failed...' in
    sign-up mode; otherwise, for a message containing ['Failed to fetch'],
    'Cannot connect to server...'; otherwise the message itself; and
    'Authentication failed' for a thrown value that is not an [Error]. *)
Theorem handleSubmit_failure_keeps_form :
  forall (w : World) (e : Thrown),
    valid_inputs (form w) = true ->
    submit_answer env (form w) = Threw e ->
    let w' := snd (handleSubmit env w) in
    session w' = session w
    /\ closed w' = closed w
    /\ st_email (form w') = st_email (form w)
    /\ st_password (form w') = st_password (form w)
    /\ st_displayName (form w') = st_displayName (form w)
    /\ exists message,
         error (form w') = Some message
         /\ shown_for (mode (form w)) e message.
Proof.
  intros w e V A. cbv zeta.
  destruct (handleSubmit_threw w V A) as (m & Sh & _ & S0 & C & F).
  rewrite S0, C, F. simpl. repeat split. exists m. split; [reflexivity | exact Sh].
Qed.

End SubmitOutcomes.

(** ** The Google handler, end to end *)

Section GoogleOutcomes.

Import AuthModal.

Variable env : Env.

(** [reconcile] either leaves the session store alone or signs in a
    profile tagged ['google'], closing the modal once. *)
Lemma reconcile_session (ui : UserInfo) (w : World) :
  (session (snd (reconcile env ui w)) = session w
   /\ closed (snd (reconcile env ui w)) = closed w
   /\ form (snd (reconcile env ui w)) = form w)
  \/ (exists u,
        fst (reconcile env ui w) = Returned tt
        /\ session (snd (reconcile env ui w))
           = AuthStore.login (with_google u) (session w)
        /\ closed (snd (reconcile env ui w)) = S (closed w)
        /\ form (snd (reconcile env ui w)) = emptied (form w)).
Proof.
  destruct (getByEmail env (ui_email ui) true) as [[p |] | e] eqn:H.
  - right. rewrite (reconcile_found env ui w H). simpl.
    exists (after_sync env ui p). repeat split.
  - left. rewrite (reconcile_nothing env ui w H). repeat split.
  - destruct (is_not_found (errorMsg_of e)) eqn:N.
    + rewrite (reconcile_not_found env ui w H N).
      destruct (register env (autoRegisterReq env ui)) as [np | e'].
      * right. exists np. repeat split.
      * left. repeat split.
    + left. rewrite (reconcile_lookup_failed env ui w H N). repeat split.
Qed.

(** The same for the whole handler. *)
Lemma onSuccess_session (tok : jsstring) (w : World) :
  fst (onSuccess env tok w) = Returned tt
  /\ isGoogleLoading (form (snd (onSuccess env tok w))) = false
  /\ ((session (snd (onSuccess env tok w)) = session w
       /\ closed (snd (onSuccess env tok w)) = closed w)
      \/ (exists u,
            session (snd (onSuccess env tok w))
            = AuthStore.login (with_google u) (session w)
            /\ closed (snd (onSuccess env tok w)) = S (closed w)
            /\ error (form (snd (onSuccess env tok w))) = None)).
Proof.
  destruct (googleUserInfo env tok) as [[[] [ui | e]] | e] eqn:F.
  - rewrite (onSuccess_reconcile env tok w F). cbv zeta.
    match goal with
    | |- context [reconcile env ui ?w1] =>
        pose proof (reconcile_session ui w1) as RS;
        destruct (reconcile env ui w1) as [r w2]
    end.
    simpl in RS.
    destruct RS as [(S0 & C & _) | (u & R & S0 & C & Fm)].
    + destruct r as [[] | [m | v]]; simpl;
        (split; [reflexivity | split; [reflexivity |]]);
        left; rewrite S0, C; split; reflexivity.
    + subst r. simpl. split; [reflexivity | split; [reflexivity |]].
      right. exists u. rewrite S0, C, Fm. repeat split.
  - unfold onSuccess, bind, finally, try_catch, request, ret, throw,
      setError, setIsGoogleLoading, modify_form, sent. simpl.
    rewrite F. simpl. destruct e; simpl;
      (split; [reflexivity | split; [reflexivity |]]); left; split; reflexivity.
  - unfold onSuccess, bind, finally, try_catch, request, ret, throw,
      setError, setIsGoogleLoading, modify_form, sent. simpl.
    rewrite F. simpl.
    split; [reflexivity | split; [reflexivity |]]. left; split; reflexivity.
  - unfold onSuccess, bind, finally, try_catch, request, ret, throw,
      setError, setIsGoogleLoading, modify_form, sent. simpl.
    rewrite F. simpl.
    split; [reflexivity | split; [reflexivity |]]. left; split; reflexivity.
  - unfold onSuccess, bind, finally, try_catch, request, ret, throw,
      setError, setIsGoogleLoading, modify_form, sent. simpl.
    rewrite F. simpl. destruct e; simpl;
      (split; [reflexivity | split; [reflexivity |]]); left; split; reflexivity.
Qed.

(** X4. The Google handler never lets an exception escape and always
    ends with its spinner off: whatever the identity provider, the backend
    and the lookup do, [onSuccess] returns and [isGoogleLoading] is false
    afterwards. *)
Theorem onSuccess_never_throws :
  forall (tok : jsstring) (w : World),
    fst (onSuccess env tok w) = Returned tt
    /\ isGoogleLoading (form (snd (onSuccess env tok w))) = false.
Proof.
  intros tok w. destruct (onSuccess_session tok w) as (R & L & _).
  split; assumption.
Qed.

(** X5. Whoever the Google handler signs in carries provider
    ['google']: after [onSuccess] the session store is either exactly as
    before (and the modal not closed), or it holds a user whose provider
    is ['google'], with [isAuthenticated] true and the store's error
    cleared, and then the modal was closed once and no error is shown. *)
Theorem onSuccess_signs_in_google_only :
  forall (tok : jsstring) (w : World),
    let w' := snd (onSuccess env tok w) in
    (session w' = session w /\ closed w' = closed w)
    \/ (exists u,
          AuthStore.user (session w') = Some u
          /\ AuthStore.provider u = Some (lit "google")
          /\ AuthStore.isAuthenticated (session w') = true
          /\ AuthStore.authError (session w') = None
          /\ closed w' = S (closed w)
          /\ error (form w') = None).
Proof.
  intros tok w. cbv zeta.
  destruct (onSuccess_session tok w) as (_ & _ & [H | (u & S0 & C & E)]).
  - left. exact H.
  - right. exists (with_google u). rewrite S0, C, E. repeat split.
Qed.

(** X6. Both handlers of the modal keep the store's invariant: if
    [isAuthenticated] agrees with the presence of [user] before
    [onSuccess] or [handleSubmit] runs, it does afterwards. *)
Theorem handlers_keep_session_invariant :
  forall (tok : jsstring) (w : World),
    AuthStore.flag_tracks_user (session w) ->
    AuthStore.flag_tracks_user (session (snd (onSuccess env tok w)))
    /\ AuthStore.flag_tracks_user (session (snd (handleSubmit env w))).
Proof.
  intros tok w I. split.
  - destruct (onSuccess_session tok w) as (_ & _ & [[S0 _] | (u & S0 & _)]);
      rewrite S0; [exact I | reflexivity].
  - destruct (AuthModalOps.valid_inputs (form w)) eqn:V.
    + destruct (AuthModalOps.submit_answer env (form w)) as [p | e] eqn:A.
      * destruct (handleSubmit_returned env w V A) as (_ & S0 & _).
        rewrite S0. reflexivity.
      * destruct (handleSubmit_threw env w V A) as (m & _ & _ & S0 & _).
        rewrite S0. exact I.
    + unfold AuthModalOps.valid_inputs in V.
      destruct (validateEmail (st_email (form w))) eqn:V1; simpl in V.
      * rewrite (proj1 (proj2 (handleSubmit_bad_password env w V1 V))). exact I.
      * rewrite (proj1 (proj2 (handleSubmit_bad_email env w V1))). exact I.
Qed.

(** X7. When the identity provider's answer is not [ok], or the fetch
    itself throws an [Error], the backend is never contacted: the only
    request is the user-info one, the session store is unchanged, and the
    message shown is 'Failed to fetch user info from Google', respectively
    the [Error]'s own message. *)
Theorem onSuccess_userinfo_failure :
  forall (tok : jsstring) (w : World),
    let w' := snd (onSuccess env tok w) in
    (forall body,
       googleUserInfo env tok = Returned {| ok := false; json := body |} ->
       new_calls w w' = [CallUserInfo tok]
       /\ session w' = session w
       /\ error (form w')
          = Some (lit "Failed to fetch user info from Google"))
    /\ (forall message,
          googleUserInfo env tok = Threw (ErrorObj message) ->
          new_calls w w' = [CallUserInfo tok]
          /\ session w' = session w
          /\ error (form w') = Some message).
Proof.
  intros tok w. cbv zeta. split; intros x F;
    unfold onSuccess, bind, finally, try_catch, request, ret, throw,
      setError, setIsGoogleLoading, modify_form, sent; simpl;
    rewrite F; simpl; repeat split; apply new_calls_app; reflexivity.
Qed.

(** X8. When the lookup by e-mail resolves without a profile and
    without throwing ([null]), the Google flow ends silently: no further
    request, nobody signed in, the modal still open, and no error
    message, with the spinner off. *)
Theorem onSuccess_null_lookup_is_silent :
  forall (tok : jsstring) (ui : UserInfo) (w : World),
    googleUserInfo env tok = Returned {| ok := true; json := Returned ui |} ->
    getByEmail env (ui_email ui) true = Returned None ->
    let w' := snd (onSuccess env tok w) in
    new_calls w w' = [CallUserInfo tok; CallGetByEmail (ui_email ui) true]
    /\ session w' = session w
    /\ closed w' = closed w
    /\ error (form w') = None
    /\ isGoogleLoading (form w') = false.
Proof.
  intros tok ui w F H. cbv zeta.
  rewrite (onSuccess_reconcile env tok w F). cbv zeta.
  rewrite (reconcile_nothing env ui _ H). simpl.
  repeat split. apply new_calls_app. simpl. rewrite <- app_assoc. reflexivity.
Qed.

End GoogleOutcomes.

(** ** What the validators accept *)

Section ValidatorFacts.

Import Regex AuthModal Validators.

Lemma in_range_bounds (lo hi : string) (l h : char16) :
  lit lo = [l] -> lit hi = [h] ->
  forall c, in_range lo hi c = true <-> (l <= c <= h)%N.
Proof.
  intros El Eh c. unfold in_range. rewrite El, Eh.
  rewrite andb_true_iff, !N.leb_le. reflexivity.
Qed.

Lemma in_lower (c : char16) : in_range "a" "z" c = true <-> (97 <= c <= 122)%N.
Proof. apply (@in_range_bounds "a" "z" 97%N 122%N eq_refl eq_refl). Qed.

Lemma in_upper (c : char16) : in_range "A" "Z" c = true <-> (65 <= c <= 90)%N.
Proof. apply (@in_range_bounds "A" "Z" 65%N 90%N eq_refl eq_refl). Qed.

Lemma in_digits (c : char16) : in_range "0" "9" c = true <-> (48 <= c <= 57)%N.
Proof. apply (@in_range_bounds "0" "9" 48%N 57%N eq_refl eq_refl). Qed.

Lemma in_at (c : char16) : in_range "@" "@" c = true <-> c = 64%N.
Proof.
  rewrite (@in_range_bounds "@" "@" 64%N 64%N eq_refl eq_refl). lia.
Qed.

Lemma in_dot (c : char16) : in_range "." "." c = true <-> c = 46%N.
Proof.
  rewrite (@in_range_bounds "." "." 46%N 46%N eq_refl eq_refl). lia.
Qed.

Lemma lang_star_cls (p : char16 -> bool) (s : jsstring) :
  lang (Star (Cls p)) s <-> forallb p s = true.
Proof.
  split.
  - intro H. remember (Star (Cls p)) as r eqn:Er.
    induction H as [| | | | | | r0 s1 s2 H1 _ H2 IH2]; try discriminate.
    + reflexivity.
    + injection Er as ->. apply lang_cls_inv in H1.
      destruct H1 as (c & -> & Hp). simpl. rewrite Hp. apply IH2. reflexivity.
  - induction s as [| c s IH]; simpl; intro H.
    + constructor.
    + apply andb_prop in H. destruct H as [Hc Hs].
      apply (L_star_app (s1 := [c])); [constructor; exact Hc | apply IH, Hs].
Qed.

Lemma lang_plus_cls (p : char16 -> bool) (s : jsstring) :
  lang (Plus (Cls p)) s <-> s <> [] /\ forallb p s = true.
Proof.
  unfold Plus. split.
  - intro H. apply lang_cat_inv in H. destruct H as (s1 & s2 & -> & H1 & H2).
    apply lang_cls_inv in H1. destruct H1 as (c & -> & Hp).
    apply lang_star_cls in H2. simpl. rewrite Hp, H2.
    split; [discriminate | reflexivity].
  - intros [Hne H]. destruct s as [| c s]; [contradiction |].
    simpl in H. apply andb_prop in H. destruct H as [Hc Hs].
    apply (L_cat (s1 := [c])); [constructor; exact Hc |].
    apply lang_star_cls, Hs.
Qed.

Lemma not_space_at_part (s : jsstring) :
  lang (Plus not_space_at) s <-> address_part s.
Proof.
  unfold not_space_at, address_part. rewrite lang_plus_cls.
  rewrite forallb_forall, Forall_forall.
  split; intros [Hne H]; (split; [exact Hne |]); intros c Hc;
    specialize (H c Hc).
  - rewrite negb_true_iff, orb_false_iff in H. destruct H as [Hs Ha].
    split; [exact Hs |]. intros ->. discriminate.
  - destruct H as [Hs Ha]. rewrite negb_true_iff, orb_false_iff.
    split; [exact Hs |].
    destruct (in_range "@" "@" c) eqn:E; [| reflexivity].
    apply in_at in E. contradiction.
Qed.

Lemma lang_at (s : jsstring) :
  lang (Cls (in_range "@" "@")) s <-> s = [64%N].
Proof.
  split.
  - intro H. apply lang_cls_inv in H. destruct H as (c & -> & Hc).
    apply in_at in Hc. subst c. reflexivity.
  - intros ->. constructor. reflexivity.
Qed.

Lemma lang_dot (s : jsstring) :
  lang (Cls (in_range "." ".")) s <-> s = [46%N].
Proof.
  split.
  - intro H. apply lang_cls_inv in H. destruct H as (c & -> & Hc).
    apply in_dot in Hc. subst c. reflexivity.
  - intros ->. constructor. reflexivity.
Qed.

Lemma address_part_no_at (s : jsstring) :
  address_part s -> count_occ N.eq_dec s 64%N = 0
                    /\ forallb (fun c => negb (is_space c)) s = true.
Proof.
  intros [_ H]. induction H as [| c s [Hs Hc] _ IH]; simpl.
  - split; reflexivity.
  - destruct IH as [IH1 IH2]. rewrite Hs, IH2.
    destruct (N.eq_dec c 64) as [E | E]; [congruence |]. auto.
Qed.

(** X9. [validateEmail] accepts exactly the strings of the form
    [local@domain.tld] whose three parts are non-empty and free of white
    space and of ['@'] (the domain and the tld may contain dots).  An
    accepted address therefore contains exactly one ['@'] and no white
    space at all. *)
Theorem validateEmail_shape :
  forall email : jsstring,
    (validateEmail email = true <->
     exists local domain tld,
       email = local ++ 64%N :: domain ++ 46%N :: tld
       /\ address_part local /\ address_part domain /\ address_part tld)
    /\ (validateEmail email = true ->
        count_occ N.eq_dec email 64%N = 1
        /\ forallb (fun c => negb (is_space c)) email = true).
Proof.
  intro email.
  assert (Shape : validateEmail email = true <->
     exists local domain tld,
       email = local ++ 64%N :: domain ++ 46%N :: tld
       /\ address_part local /\ address_part domain /\ address_part tld).
  { unfold validateEmail, email_re. rewrite fullmatch_lang. split.
    - intro H.
      apply lang_cat_inv in H. destruct H as (l & r1 & -> & Hl & H).
      apply lang_cat_inv in H. destruct H as (a & r2 & -> & Ha & H).
      apply lang_cat_inv in H. destruct H as (d & r3 & -> & Hd & H).
      apply lang_cat_inv in H. destruct H as (o & t & -> & Ho & Ht).
      apply lang_at in Ha. apply lang_dot in Ho.
      subst a o. exists l, d, t.
      rewrite <- !not_space_at_part. repeat split; assumption.
    - intros (l & d & t & -> & Hl & Hd & Ht).
      rewrite <- not_space_at_part in Hl, Hd, Ht.
      apply L_cat; [exact Hl |].
      apply (L_cat (s1 := [64%N])); [apply lang_at; reflexivity |].
      apply L_cat; [exact Hd |].
      apply (L_cat (s1 := [46%N])); [apply lang_dot; reflexivity | exact Ht]. }
  split; [exact Shape |].
  intro H. apply Shape in H. destruct H as (l & d & t & -> & Hl & Hd & Ht).
  apply address_part_no_at in Hl, Hd, Ht.
  destruct Hl as [L1 L2], Hd as [D1 D2], Ht as [T1 T2].
  split.
  - rewrite count_occ_app. simpl. rewrite count_occ_app. simpl.
    rewrite L1, D1, T1. reflexivity.
  - repeat (rewrite forallb_app || cbn [forallb]).
    repeat (apply andb_true_intro; split); solve [assumption | reflexivity].
Qed.

(** X10. [validatePassword] accepts exactly the passwords of at least
    six code units that contain an ASCII letter and an ASCII digit; so a
    password without a digit, or without a letter, never passes, whatever
    its length. *)
Theorem validatePassword_accepts :
  forall password : jsstring,
    (validatePassword password = true <->
     6 <= List.length password
     /\ (exists c, In c password /\ is_letter c)
     /\ (exists c, In c password /\ is_digit c))
    /\ (Forall (fun c => ~ is_digit c) password ->
        validatePassword password = false)
    /\ (Forall (fun c => ~ is_letter c) password ->
        validatePassword password = false).
Proof.
  intro password.
  assert (Acc : validatePassword password = true <->
     6 <= List.length password
     /\ (exists c, In c password /\ is_letter c)
     /\ (exists c, In c password /\ is_digit c)).
  { rewrite validatePassword_spec, !andb_true_iff, Nat.leb_le.
    rewrite !existsb_exists. unfold is_letter, is_digit.
    split.
    - intros [[HL (c & Hc & Hl)] (d & Hd & Hdg)]. split; [exact HL |]. split.
      + exists c. split; [exact Hc |].
        rewrite orb_true_iff, in_lower, in_upper in Hl. exact Hl.
      + exists d. split; [exact Hd |]. apply in_digits, Hdg.
    - intros (HL & (c & Hc & Hl) & (d & Hd & Hdg)). repeat split.
      + exact HL.
      + exists c. split; [exact Hc |].
        rewrite orb_true_iff, in_lower, in_upper. exact Hl.
      + exists d. split; [exact Hd |]. apply in_digits, Hdg. }
  split; [exact Acc | split].
  - intros Hnd. destruct (validatePassword password); [| reflexivity].
    destruct (proj1 Acc eq_refl) as (_ & _ & (d & Hd & Hdg)).
    rewrite Forall_forall in Hnd. exfalso. exact (Hnd d Hd Hdg).
  - intros Hnl. destruct (validatePassword password); [| reflexivity].
    destruct (proj1 Acc eq_refl) as (_ & (c & Hc & Hl) & _).
    rewrite Forall_forall in Hnl. exfalso. exact (Hnl c Hc Hl).
Qed.

Lemma digit36_alnum (d : N) : is_lower_alnum (JsMath.digit36 d).
Proof.
  unfold is_lower_alnum, JsMath.digit36. cbv zeta.
  pose proof (N.mod_upper_bound d 36 ltac:(discriminate)) as B.
  remember (d mod 36)%N as m eqn:Em. clear Em.
  destruct (m <? 10)%N eqn:E.
  - apply N.ltb_lt in E. left. lia.
  - apply N.ltb_ge in E. right. lia.
Qed.

Lemma drawn_chars_alnum (ds : list JsMath.Draw) :
  Forall is_lower_alnum
    (join_empty (List.map (fun d => charAt 2 (JsMath.toString36 d)) ds)).
Proof.
  unfold join_empty. induction ds as [| d ds IH]; simpl.
  - constructor.
  - apply Forall_app. split; [| exact IH].
    rewrite drawn_char. destruct (JsMath.fraction36 d) as [| x xs].
    + constructor.
    + constructor; [apply digit36_alnum | constructor].
Qed.

(** X11. Whatever [Math.random] returns, the generated credential is
    at most sixteen characters of [0-9a-z] followed by ['Aa1']: it has
    between 3 and 19 code units, all of them ASCII letters or digits. *)
Theorem randomPassword_alphabet :
  forall rnd : nat -> JsMath.Draw,
    exists body,
      randomPassword rnd = body ++ lit "Aa1"
      /\ List.length body <= 16
      /\ Forall is_lower_alnum body
      /\ 3 <= List.length (randomPassword rnd) <= 19
      /\ Forall (fun c => is_letter c \/ is_digit c) (randomPassword rnd).
Proof.
  intro rnd. unfold randomPassword.
  rewrite <- (map_map rnd (fun d => charAt 2 (JsMath.toString36 d))).
  set (ds := List.map rnd (seq 0 16)).
  set (body := join_empty _).
  assert (HL : List.length body <= 16).
  { unfold body. rewrite drawn_chars_length.
    etransitivity; [apply filter_length_le |].
    unfold ds. rewrite length_map, length_seq. constructor. }
  assert (HA : Forall is_lower_alnum body) by apply drawn_chars_alnum.
  exists body. split; [reflexivity |]. split; [exact HL |].
  split; [exact HA |]. split.
  - rewrite length_app. simpl. lia.
  - apply Forall_app. split.
    + eapply Forall_impl; [| exact HA].
      unfold is_lower_alnum, is_letter, is_digit. intros c [H | H]; auto.
    + change (lit "Aa1") with [65%N; 97%N; 49%N].
      unfold is_letter, is_digit.
      apply Forall_cons; [left; right; lia |].
      apply Forall_cons; [left; left; lia |].
      apply Forall_cons; [right; lia | apply Forall_nil].
Qed.

End ValidatorFacts.

(** ** The session store: who is signed in after a run *)

Section StoreReaders.

Import AuthStore AuthStoreOps.

Lemma run_app (a b : list Action) (s : AuthState) :
  run (a ++ b) s = run b (run a s).
Proof. unfold run. apply fold_left_app. Qed.

Lemma run_keeps_user (rest : list Action) :
  Forall (fun b => writes_user b = None) rest ->
  forall s, user (run rest s) = user s
            /\ isAuthenticated (run rest s) = isAuthenticated s.
Proof.
  induction 1 as [| b rest Hb _ IH]; intro s.
  - split; reflexivity.
  - change (run (b :: rest) s) with (run rest (step s b)).
    destruct (IH (step s b)) as [-> ->].
    destruct b; simpl in Hb; try discriminate; split; reflexivity.
Qed.

(** X12. The last writer wins: after any sequence of store operations,
    [user] is the value written by the last [setUser], [login] or [logout]
    of the sequence ([setAuthLoading] and [setAuthError] calls after it do
    not matter, nor does anything before it), and [isAuthenticated] is its
    truthiness. *)
Theorem last_writer_wins :
  forall (before rest : list Action) (a : Action) (u : option Profile)
         (s : AuthState),
    writes_user a = Some u ->
    Forall (fun b => writes_user b = None) rest ->
    user (run (before ++ a :: rest) s) = u
    /\ isAuthenticated (run (before ++ a :: rest) s) = not_not u.
Proof.
  intros before rest a u s Ha Hrest.
  rewrite run_app.
  change (run (a :: rest) (run before s)) with
    (run rest (step (run before s) a)).
  destruct (run_keeps_user Hrest (step (run before s) a)) as [-> ->].
  destruct a; simpl in Ha; try discriminate; injection Ha as <-;
    split; reflexivity.
Qed.

(** X13. In every state the store can reach from its initial state,
    the test [isAuthenticated && user] of the navigation bars and the test
    [!isAuthenticated] of the home page are opposite: the user menu is
    shown exactly when the welcome screen is not, so the header and the
    main area never disagree about whether somebody is signed in. *)
Theorem header_and_main_agree :
  forall acts : list Action,
    showsUserMenu (run acts initial) = negb (showsWelcome (run acts initial))
    /\ showsUserMenu (run acts initial) = isAuthenticated (run acts initial).
Proof.
  intro acts. unfold showsUserMenu, showsWelcome.
  rewrite <- (run_tracks acts initial_tracks).
  rewrite negb_involutive, andb_diag. split; reflexivity.
Qed.

End StoreReaders.

(** ** The Classroom hooks *)

Section ClassroomHooks.

Import ClassroomHook ClassroomQueries.




(** X15. The access gate [useHasClassroomAccess] and the token hook
    do not always agree.  In the gate, [hasAccess] implies
    [hasAccessToken], and the two differ exactly for a session that
    carries an access token but whose provider is not ['google'], with no
    stored token; for such a session the token hook nevertheless reports
    [hasAccess] and hands the session token to the queries. *)
Theorem gate_and_token_hook :
  forall (session : SessionData) (status : jsstring) (hasStored : bool),
    let gate := useHasClassroomAccess session status hasStored in
    (a_hasAccess gate = true -> hasAccessToken gate = true)
    /\ (hasAccessToken gate = true /\ a_hasAccess gate = false <->
        truthy (sessionToken session) = true
        /\ a_isGoogleUser gate = false /\ hasStored = false)
    /\ (truthy (sessionToken session) = true ->
        a_isGoogleUser gate = false -> hasStored = false ->
        a_hasAccess gate = false
        /\ hasAccess (useClassroomAccessToken session initial) = true
        /\ r_accessToken (useClassroomAccessToken session initial)
           = sessionToken session).
Proof.
  intros session status hasStored. cbv zeta.
  unfold useHasClassroomAccess, useClassroomAccessToken, or_else. simpl.
  set (g := match session with
            | Some (Some u) => opt_str_eqb (provider u) (Some (lit "google"))
            | _ => false
            end).
  split; [| split].
  - destruct g, (truthy (sessionToken session)), hasStored; simpl;
      intro H; solve [reflexivity | discriminate H].
  - destruct g, (truthy (sessionToken session)), hasStored; simpl;
      split; intro H; repeat split;
      solve [reflexivity | destruct H as [? ?]; discriminate
            | destruct H as (? & ? & ?); discriminate].
  - intros T G S0. rewrite T, G, S0. repeat split.
Qed.



End ClassroomHooks.

(** ** The Classroom fetchers and the retry policy *)

Section Fetching.

Import AuthModal ClassroomData ClassroomQueries.

Variable net : Request -> Outcome Response.

Lemma includes_middle (pre sub post : jsstring) :
  includes (pre ++ sub ++ post) sub = true.
Proof. apply includes_spec. exists pre, post. reflexivity. Qed.

(** The error of a response that is not [ok] and whose text can be
    read. *)
Lemma fetchJson_not_ok (address accessToken : jsstring) (what : string)
  (response : Response) (body : jsstring) :
  net (classroomGet address accessToken) = Returned response ->
  ok response = false ->
  text response = Returned body ->
  fetchJson net address accessToken what
  = Threw (ErrorObj (lit what ++ decimal (status response) ++ lit " "
                     ++ statusText response)).
Proof.
  intros Hn Hok Ht. unfold fetchJson. rewrite Hn, Hok, Ht. reflexivity.
Qed.

Lemma retry_auth_message (what : string) (code : N) (rest : jsstring) (n : nat) :
  code = 401%N \/ code = 403%N ->
  retry n (ErrorObj (lit what ++ decimal code ++ lit " " ++ rest)) = false.
Proof.
  intros [-> | ->]; unfold retry.
  - change (decimal 401) with (lit "401").
    rewrite includes_middle. reflexivity.
  - change (decimal 403) with (lit "403").
    rewrite includes_middle, orb_true_r. reflexivity.
Qed.

(** X17. A 401 or 403 answer of the Classroom API is never retried:
    when the network answers every request with a response that is not
    [ok], has status 401 or 403 and a readable body, each of the four
    fetchers throws an [Error] on which the queries' [retry] option is
    false at every failure count.  For any error at all, [retry] allows
    a retry only at failure counts 0 and 1. *)
Theorem auth_errors_are_not_retried :
  forall (response : Response) (body courseId accessToken : jsstring),
    (forall req, net req = Returned response) ->
    ok response = false ->
    text response = Returned body ->
    status response = 401%N \/ status response = 403%N ->
    (exists e1 e2 e3 e4,
       fetchClassroomCourses net accessToken = Threw e1
       /\ fetchCourseWork net courseId accessToken = Threw e2
       /\ fetchCourseAnnouncements net courseId accessToken = Threw e3
       /\ fetchCourseMaterials net courseId accessToken = Threw e4
       /\ forall n, retry n e1 = false /\ retry n e2 = false
                    /\ retry n e3 = false /\ retry n e4 = false)
    /\ (forall n e, retry n e = true -> n < 2).
Proof.
  intros response body courseId accessToken Hn Hok Ht Hs. split.
  - unfold fetchClassroomCourses, fetchCourseWork, fetchCourseAnnouncements,
      fetchCourseMaterials.
    rewrite !(fun a w => @fetchJson_not_ok a accessToken w response body
                           (Hn _) Hok Ht).
    unfold on_data. do 4 eexists.
    split; [reflexivity |]. split; [reflexivity |].
    split; [reflexivity |]. split; [reflexivity |].
    intro n. repeat split; apply retry_auth_message, Hs.
  - intros n e. unfold retry.
    destruct (match e with
              | ErrorObj message =>
                  includes message (lit "401") || includes message (lit "403")
              | OtherValue _ => false
              end); [discriminate |].
    intro H. apply Nat.ltb_lt, H.
Qed.

(** X18. [fetchClassroomCourses] returns a list exactly when the
    answer to its one request (the ACTIVE courses address, with the header
    [Authorization: Bearer <token>]) is [ok] and its body parses; the list
    is then the [courses] key of the body, or the empty list when the key
    is missing.  In every other case it throws. *)
Theorem fetchClassroomCourses_returns :
  forall (accessToken : jsstring) (l : list ClassroomApi.ClassroomCourse),
    fetchClassroomCourses net accessToken = Returned l <->
    exists response data,
      net {| req_url :=
               lit "https://classroom.googleapis.com/v1/courses?courseStates=ACTIVE";
             authorization := lit "Bearer " ++ accessToken;
             contentType := lit "application/json" |} = Returned response
      /\ ok response = true
      /\ json response = Returned data
      /\ l = match courses data with Some cs => cs | None => [] end.
Proof.
  intros accessToken l.
  unfold fetchClassroomCourses, fetchJson, on_data, classroomGet, or_empty.
  destruct (net _) as [response | e].
  - destruct (ok response) eqn:Hok; simpl.
    + destruct (json response) as [data | e] eqn:Hj.
      * split.
        -- intro H. injection H as <-. exists response, data. auto.
        -- intros (r & d & Hr & _ & Hd & ->). injection Hr as <-.
           rewrite Hj in Hd. injection Hd as <-. reflexivity.
      * split; [discriminate |].
        intros (r & d & Hr & _ & Hd & _). injection Hr as <-.
        rewrite Hj in Hd. discriminate.
    + split.
      * destruct (text response); discriminate.
      * intros (r & d & Hr & Hk & _). injection Hr as <-. congruence.
  - split; [discriminate |]. intros (r & d & Hr & _). discriminate.
Qed.

(** X19. [fetchCourseAnnouncements] gives every announcement its
    [text] as [title] and as [description]: on an [ok] answer with a
    parsable body it returns as many announcements as the body holds (none
    when the key is missing), in the same order, each with the title and
    description equal to its text and every other field as delivered. *)
Theorem announcements_titled_by_text :
  forall (courseId accessToken : jsstring) (response : Response)
         (data : ClassroomJson),
    net (classroomGet
           (lit "https://classroom.googleapis.com/v1/courses/" ++ courseId
            ++ lit "/announcements") accessToken) = Returned response ->
    ok response = true ->
    json response = Returned data ->
    exists out,
      fetchCourseAnnouncements net courseId accessToken = Returned out
      /\ List.length out = List.length (or_empty (announcements data))
      /\ (announcements data = None -> out = [])
      /\ forall i raw,
           nth_error (or_empty (announcements data)) i = Some raw ->
           exists a,
             nth_error out i = Some a
             /\ an_title a = Some (an_text raw)
             /\ an_description a = Some (an_text raw)
             /\ an_text a = an_text raw /\ an_id a = an_id raw
             /\ an_courseId a = an_courseId raw
             /\ an_materials a = an_materials raw
             /\ an_state a = an_state raw
             /\ an_alternateLink a = an_alternateLink raw
             /\ an_creationTime a = an_creationTime raw
             /\ an_updateTime a = an_updateTime raw.
Proof.
  intros courseId accessToken response data Hn Hok Hj.
  unfold fetchCourseAnnouncements, fetchJson, on_data.
  rewrite Hn, Hok. simpl. rewrite Hj.
  eexists. split; [reflexivity |]. split; [apply length_map |]. split.
  - intros ->. reflexivity.
  - intros i raw Hi. exists (titled raw). split.
    + rewrite nth_error_map, Hi. reflexivity.
    + repeat split.
Qed.

End Fetching.

(** ** [extractMaterialInfo] *)

Section Materials.

Import ClassroomData.

(** X20. [extractMaterialInfo] classifies by the first attachment
    present, in the order drive file, video, link, form: the type is
    ['file'] exactly when the material has an inner drive file, ['video']
    exactly when it has none but has a video, ['link'] exactly when it has
    neither but has a link, ['form'] exactly when it has only a form, and
    ['unknown'] exactly when it has none of the four (a drive attachment
    without its inner file counts as absent). *)
Theorem extractMaterialInfo_classifies :
  forall material : CourseMaterial,
    let info := extractMaterialInfo material in
    (mi_type info = lit "file" <-> drive_inner material <> None)
    /\ (mi_type info = lit "video" <->
        drive_inner material = None /\ youTubeVideo material <> None)
    /\ (mi_type info = lit "link" <->
        drive_inner material = None /\ youTubeVideo material = None
        /\ link material <> None)
    /\ (mi_type info = lit "form" <->
        drive_inner material = None /\ youTubeVideo material = None
        /\ link material = None /\ form material <> None)
    /\ (mi_type info = lit "unknown" <->
        drive_inner material = None /\ youTubeVideo material = None
        /\ link material = None /\ form material = None).
Proof.
  intro material. cbv zeta. unfold extractMaterialInfo.
  destruct (drive_inner material) as [d |],
           (youTubeVideo material) as [v |],
           (link material) as [l |],
           (form material) as [f |]; cbn [mi_type];
    repeat match goal with
           | |- context [lit ?s] =>
               let v := eval vm_compute in (lit s) in change (lit s) with v
           end;
    intuition (try discriminate; try congruence).
Qed.


End Materials.

(** ** [SectionMaterialModal] *)

Section MaterialModal.

Import ClassroomData SectionMaterialModal.

Lemma insert_perm {A : Type} (cmp : A -> A -> Z) (x : A) (l : list A) :
  Permutation (insert cmp x l) (x :: l).
Proof.
  induction l as [| y l IH]; simpl.
  - apply Permutation_refl.
  - destruct (0 <? cmp x y)%Z.
    + eapply Permutation_trans; [apply perm_skip, IH | apply perm_swap].
    + apply Permutation_refl.
Qed.

Lemma sort_perm {A : Type} (cmp : A -> A -> Z) (l : list A) :
  Permutation (sort cmp l) l.
Proof.
  induction l as [| x l IH]; simpl.
  - apply perm_nil.
  - eapply Permutation_trans; [apply insert_perm | apply perm_skip, IH].
Qed.

Lemma filter_length_perm {A : Type} (p : A -> bool) (l l' : list A) :
  Permutation l l' ->
  List.length (List.filter p l) = List.length (List.filter p l').
Proof.
  induction 1 as [| x l l' _ IH | x y l | l l' l'' _ IH1 _ IH2]; simpl.
  - reflexivity.
  - destruct (p x); simpl; congruence.
  - destruct (p x), (p y); reflexivity.
  - congruence.
Qed.

Variable getTime : jsstring -> Z.

Lemma insert_sorted (x : Entry) (l : list Entry) :
  Sorted (not_older getTime) l -> Sorted (not_older getTime) (insert (newest_first getTime) x l).
Proof.
  induction 1 as [| y l Hs IH Hh]; simpl.
  - repeat constructor.
  - destruct (0 <? newest_first getTime x y)%Z eqn:E.
    + apply Z.ltb_lt in E. constructor; [exact IH |].
      destruct l as [| z l]; simpl.
      * constructor. unfold not_older, newest_first in *. lia.
      * destruct (0 <? newest_first getTime x z)%Z.
        -- constructor. inversion Hh; assumption.
        -- constructor. unfold not_older, newest_first in *. lia.
    + apply Z.ltb_ge in E. constructor.
      * constructor; assumption.
      * constructor. unfold not_older, newest_first in *. lia.
Qed.

Lemma sort_sorted (l : list Entry) :
  Sorted (not_older getTime) (sort (newest_first getTime) l).
Proof.
  induction l as [| x l IH]; simpl.
  - constructor.
  - apply insert_sorted, IH.
Qed.

Lemma filter_work (courseWork : list CourseWork) (t : ItemType) :
  List.filter (has_type t)
    (List.map (fun i => {| item := Work i; type := assignment |}) courseWork)
  = match t with
    | assignment =>
        List.map (fun i => {| item := Work i; type := assignment |}) courseWork
    | material => []
    end.
Proof.
  induction courseWork as [| w ws IH]; destruct t; simpl in *;
    try rewrite IH; reflexivity.
Qed.

Lemma filter_material (materials : list CourseWorkMaterial) (t : ItemType) :
  List.filter (has_type t)
    (List.map (fun i => {| item := Material i; type := material |}) materials)
  = match t with
    | assignment => []
    | material =>
        List.map (fun i => {| item := Material i; type := material |})
          materials
    end.
Proof.
  induction materials as [| m ms IH]; destruct t; simpl in *;
    try rewrite IH; reflexivity.
Qed.

Lemma tagged_counts (courseWork : list CourseWork)
  (materials : list CourseWorkMaterial) (t : ItemType) :
  List.length
    (List.filter (has_type t)
       (List.map (fun i => {| item := Work i; type := assignment |}) courseWork
        ++ List.map (fun i => {| item := Material i; type := material |})
             materials))
  = match t with
    | assignment => List.length courseWork
    | material => List.length materials
    end.
Proof.
  rewrite filter_app, length_app, filter_work, filter_material.
  destruct t; simpl; rewrite length_map; lia.
Qed.

(** X22. The numbers on the tabs match the lists under them: the
    'Assignments' tab lists exactly [courseWork.length] items, all of type
    assignment, the 'Materials' tab exactly [materials.length] items, all
    of type material, and 'All Sections' lists all of them. *)
Theorem tab_counts_match_lists :
  forall (courseWork : list CourseWork) (materials : list CourseWorkMaterial),
    let items := allItems getTime courseWork materials in
    List.length (filteredItems assignments items) = List.length courseWork
    /\ List.length (filteredItems SectionMaterialModal.materials items)
       = List.length materials
    /\ List.length (filteredItems all items)
       = List.length courseWork + List.length materials
    /\ Forall (fun e => type e = assignment) (filteredItems assignments items)
    /\ Forall (fun e => type e = material)
         (filteredItems SectionMaterialModal.materials items).
Proof.
  intros courseWork materials. cbv zeta. unfold allItems, filteredItems.
  cbv zeta.
  rewrite !(filter_length_perm _ (sort_perm (newest_first getTime) _)).
  rewrite (tagged_counts courseWork materials assignment).
  rewrite (tagged_counts courseWork materials material).
  rewrite (Permutation_length (sort_perm (newest_first getTime) _)).
  rewrite length_app, !length_map.
  repeat split; apply Forall_forall; intros e He; apply filter_In in He;
    destruct He as [_ He]; unfold has_type in He; destruct (type e);
    solve [reflexivity | discriminate].
Qed.

(** X23. [allItems] holds every assignment and every material exactly
    once (it is a permutation of the two lists, tagged), newest first:
    each entry's creation time is at least that of every entry after
    it. *)
Theorem allItems_newest_first :
  forall (courseWork : list CourseWork) (materials : list CourseWorkMaterial),
    Permutation (allItems getTime courseWork materials)
      (List.map (fun i => {| item := Work i; type := assignment |}) courseWork
       ++ List.map (fun i => {| item := Material i; type := material |})
            materials)
    /\ StronglySorted
         (fun a b =>
            (getTime (item_creationTime (item b))
             <= getTime (item_creationTime (item a)))%Z)
         (allItems getTime courseWork materials).
Proof.
  intros courseWork materials. unfold allItems. cbv zeta. split.
  - apply sort_perm.
  - apply Sorted_StronglySorted.
    + intros a b c Hab Hbc. lia.
    + apply sort_sorted.
Qed.

Lemma step_budget (st : State) (ev : UiEvent) :
  budget (step st ev) <= budget st + (if resets ev then 1 else 0).
Proof.
  unfold budget. destruct ev as [e | | | t]; simpl.
  - unfold clickItem, handleItemSelect, disabled.
    destruct (loadingItemId st) as [i |] eqn:L; simpl.
    + rewrite L. lia.
    + rewrite length_app. simpl. lia.
  - destruct (disabled st); lia.
  - destruct (disabled st); lia.
  - unfold disabled. simpl. lia.
Qed.

Lemma run_budget (evs : list UiEvent) :
  forall st,
    budget (run evs st)
    <= budget st + List.length (List.filter resets evs).
Proof.
  unfold run. induction evs as [| ev evs IH]; intro st; simpl.
  - lia.
  - specialize (IH (step st ev)). pose proof (step_budget st ev) as Hs.
    destruct (resets ev); simpl; lia.
Qed.

(** X24. The double-click guard: whatever the user clicks, the modal
    reports at most one selection to its parent between two resets (a
    close or a back).  Over any sequence of events the number of
    [onItemSelect] calls grows by at most one plus the number of resets;
    and while an item is loading, clicks report nothing. *)
Theorem at_most_one_selection_per_reset :
  forall (evs : list UiEvent) (st : State),
    List.length (selections (run evs st))
    <= List.length (selections st) + 1 + List.length (List.filter resets evs)
    /\ (loadingItemId st <> None ->
        Forall (fun ev => resets ev = false) evs ->
        selections (run evs st) = selections st).
Proof.
  intros evs st. split.
  - pose proof (run_budget evs st) as H. unfold budget in H.
    destruct (disabled (run evs st)), (disabled st); lia.
  - revert st. unfold run.
    induction evs as [| ev evs IH]; intros st L F; simpl.
    + reflexivity.
    + inversion F as [| ? ? Hev Hrest]; subst.
      assert (Hstep : selections (step st ev) = selections st
                      /\ loadingItemId (step st ev) <> None).
      { destruct ev as [e | | | t]; simpl in *; try discriminate.
        - unfold clickItem, disabled.
          destruct (loadingItemId st) eqn:E; [| contradiction].
          rewrite E. split; [reflexivity | discriminate].
        - split; [reflexivity | exact L]. }
      destruct Hstep as [Hsel Hl]. rewrite (IH _ Hl Hrest). exact Hsel.
Qed.

(** X25. The modal's two queries run only for an open modal with a
    course whose id is not empty, and only with a token: without a course
    the course id handed to the hooks is [''] and both queries are
    disabled; and when one is enabled the modal is open, the course is
    there with a non-empty id, and the token hook reports access. *)
Theorem modal_queries_need_a_course :
  forall (isOpen : bool) (course : option ClassroomApi.ClassroomCourse)
         (session : ClassroomHook.SessionData) (h : ClassroomHook.HookState),
    (course = None ->
     ClassroomQueries.enabled (courseWorkQuery isOpen course session h) = false
     /\ ClassroomQueries.enabled (materialsQuery isOpen course session h)
        = false)
    /\ (ClassroomQueries.enabled (courseWorkQuery isOpen course session h)
        = ClassroomQueries.enabled (materialsQuery isOpen course session h))
    /\ (ClassroomQueries.enabled (courseWorkQuery isOpen course session h)
        = true <->
        isOpen = true
        /\ (exists c, course = Some c /\ ClassroomApi.id c <> [])
        /\ ClassroomHook.hasAccess
             (ClassroomHook.useClassroomAccessToken session h) = true).
Proof.
  intros isOpen course session h.
  unfold courseWorkQuery, materialsQuery, ClassroomQueries.useCourseWork,
    ClassroomQueries.useCourseMaterials, open_with_course, course_id_or_empty,
    ClassroomQueries.nonempty, or_string, or_else.
  cbv zeta. cbn [ClassroomQueries.enabled].
  set (a := ClassroomHook.hasAccess _).
  split; [| split].
  - intros ->. rewrite andb_false_r. split; reflexivity.
  - reflexivity.
  - destruct course as [c |].
    + destruct (ClassroomApi.id c) as [| x xs] eqn:I; simpl.
      * rewrite andb_false_r. simpl. split; [discriminate |].
        intros (_ & (c' & E & N) & _). injection E as <-. contradiction.
      * rewrite !andb_true_r. split.
        -- intro H. apply andb_prop in H. destruct H as [H1 H2].
           repeat split; try assumption. exists c. split; [reflexivity |].
           rewrite I. discriminate.
        -- intros (-> & _ & ->). reflexivity.
    + rewrite andb_false_r. simpl. split; [discriminate |].
      intros (_ & (c' & E & _) & _). discriminate.
Qed.

End MaterialModal.

(** ** [HomePage] *)

Section Home.

Import HomePage.

Lemma includes_empty (s : jsstring) : includes s [] = true.
Proof. destruct s; reflexivity. Qed.

(** X26. The project search keeps the projects whose lowercased name
    or description contains the lowercased query, in their original
    order; with an empty search box it lists every project (given that
    lowercasing [''] gives ['']). *)
Theorem filteredProjects_search :
  forall (toLowerCase : jsstring -> jsstring) (projects : list Project)
         (searchQuery : jsstring),
    ClassroomApi.Subseq (filteredProjects toLowerCase projects searchQuery)
      projects
    /\ (forall p,
          In p (filteredProjects toLowerCase projects searchQuery) <->
          In p projects
          /\ (includes (toLowerCase (name p)) (toLowerCase searchQuery) = true
              \/ exists d,
                   description p = Some d
                   /\ includes (toLowerCase d) (toLowerCase searchQuery)
                      = true))
    /\ (toLowerCase [] = [] ->
        filteredProjects toLowerCase projects [] = projects).
Proof.
  intros toLowerCase projects searchQuery. unfold filteredProjects.
  split; [apply filter_Subseq | split].
  - intro p. rewrite filter_In. unfold project_matches.
    rewrite orb_true_iff. split; intros [Hin H]; (split; [exact Hin |]).
    + destruct H as [H | H]; [left; exact H | right].
      destruct (description p) as [d |]; [| discriminate].
      exists d. auto.
    + destruct H as [H | (d & E & H)]; [left; exact H | right].
      rewrite E. exact H.
  - intro E. apply forallb_filter_id. apply forallb_forall. intros p _.
    unfold project_matches. rewrite E, includes_empty. reflexivity.
Qed.

(** X27. [handleCreateProject] does nothing at all (no request, no
    store call, inputs kept) when the name is blank or nobody with a
    non-empty id is signed in.  Otherwise it sends exactly one create
    request, with the trimmed name, and adds exactly one project whether
    the backend answers or throws: the returned project, or a local one
    with the same trimmed name, description, colour and user id; it then
    closes the form, empties the inputs and ends with loading off. *)
Theorem handleCreateProject_adds_one :
  forall (env : Env) (user : option AuthStore.Profile) (pg : Page),
    let pg' := handleCreateProject env user pg in
    ((ClassroomApi.blank (newProjectName pg) = true
      \/ truthy (user_id user) = false) -> pg' = pg)
    /\ (forall u,
          ClassroomApi.blank (newProjectName pg) = false ->
          user = Some u -> AuthStore.id u <> [] ->
          requests pg'
          = requests pg
            ++ [{| c_name := trim (newProjectName pg);
                   c_description :=
                     trimmed_or_undefined (newProjectDescription pg);
                   c_color := newProjectColor pg;
                   c_userId := AuthStore.id u |}]
          /\ storeCalls pg'
             = storeCalls pg
               ++ [SetLoading true; AddProject (project_to_add env u pg);
                   ToggleCreateProject false; SetLoading false]
          /\ (forall e, create env
                          {| c_name := trim (newProjectName pg);
                             c_description :=
                               trimmed_or_undefined (newProjectDescription pg);
                             c_color := newProjectColor pg;
                             c_userId := AuthStore.id u |}
                        = AuthModal.Threw e ->
                name (project_to_add env u pg) = trim (newProjectName pg)
                /\ name (project_to_add env u pg) <> []
                /\ userId (project_to_add env u pg) = AuthStore.id u
                /\ id (project_to_add env u pg) = randomUUID env)
          /\ newProjectName pg' = [] /\ newProjectDescription pg' = []
          /\ newProjectColor pg' = lit "#8B5CF6"
          /\ error pg' = None).
Proof.
  intros env user pg. cbv zeta. unfold handleCreateProject.
  rewrite blank_trim_falsy. split.
  - intros [B | U].
    + rewrite B. reflexivity.
    + rewrite U, orb_true_r. reflexivity.
  - intros u B -> I. rewrite B. unfold user_id. simpl.
    destruct (AuthStore.id u) as [| c cs] eqn:E; [contradiction |].
    simpl. unfold project_to_add. rewrite E.
    destruct (create env _) as [np | e] eqn:C; simpl;
      (split; [reflexivity |]); (split; [rewrite <- !app_assoc; reflexivity |]);
      (split; [| repeat split]).
    + intros e H. discriminate.
    + intros e' _. repeat split.
      intro T. apply trim_nil_iff in T. unfold ClassroomApi.blank in B.
      congruence.
Qed.

End Home.

(** ** The further properties on concrete inputs *)

Section MoreScenarios.

Import AuthModal Sample Sample2.

Lemma handleSubmit_never_throws_witness :
  AuthModalOps.valid_inputs (form aliceLogin) = true
  /\ isLoading (form (snd (handleSubmit env_login_ok aliceLogin))) = false.
Proof.
  split; [reflexivity |].
  exact (proj2 (@handleSubmit_never_throws env_login_ok aliceLogin) eq_refl).
Defined.

Lemma handleSubmit_signs_in_returned_profile_witness :
  AuthModalOps.valid_inputs (form aliceLogin) = true
  /\ AuthModalOps.submit_answer env_login_ok (form aliceLogin)
     = Returned aliceProfile
  /\ AuthStore.user (session (snd (handleSubmit env_login_ok aliceLogin)))
     = Some aliceProfile.
Proof.
  split; [reflexivity | split; [reflexivity |]].
  exact (proj1 (@handleSubmit_signs_in_returned_profile env_login_ok
                  aliceLogin aliceProfile eq_refl eq_refl)).
Defined.

Lemma handleSubmit_failure_keeps_form_witness :
  AuthModalOps.valid_inputs (form aliceLogin) = true
  /\ AuthModalOps.submit_answer env_alice_new_down (form aliceLogin)
     = Threw (ErrorObj (lit "Failed to fetch"))
  /\ session (snd (handleSubmit env_alice_new_down aliceLogin))
     = session aliceLogin.
Proof.
  split; [reflexivity | split; [reflexivity |]].
  exact (proj1 (@handleSubmit_failure_keeps_form env_alice_new_down
                  aliceLogin (ErrorObj (lit "Failed to fetch"))
                  eq_refl eq_refl)).
Defined.

Lemma handlers_keep_session_invariant_witness :
  AuthStore.flag_tracks_user (session fresh)
  /\ AuthStore.flag_tracks_user
       (session (snd (onSuccess env_alice_new (lit "tok") fresh))).
Proof.
  split; [reflexivity |].
  exact (proj1 (@handlers_keep_session_invariant env_alice_new (lit "tok")
                  fresh eq_refl)).
Defined.

Lemma onSuccess_userinfo_failure_witness :
  googleUserInfo env_google_refuses (lit "tok")
  = Returned {| ok := false; json := unreachable |}
  /\ new_calls fresh (snd (onSuccess env_google_refuses (lit "tok") fresh))
     = [CallUserInfo (lit "tok")].
Proof.
  split; [reflexivity |].
  exact (proj1 (proj1 (@onSuccess_userinfo_failure env_google_refuses
                         (lit "tok") fresh) unreachable eq_refl)).
Defined.

Lemma onSuccess_null_lookup_is_silent_witness :
  googleUserInfo env_lookup_null (lit "tok")
  = Returned {| ok := true; json := Returned aliceInfo |}
  /\ getByEmail env_lookup_null (ui_email aliceInfo) true = Returned None
  /\ session (snd (onSuccess env_lookup_null (lit "tok") fresh))
     = session fresh.
Proof.
  split; [reflexivity | split; [reflexivity |]].
  exact (proj1 (proj2 (@onSuccess_null_lookup_is_silent env_lookup_null
                         (lit "tok") aliceInfo fresh eq_refl eq_refl))).
Defined.

Lemma validateEmail_shape_witness :
  validateEmail (lit "a@x.com") = true
  /\ count_occ N.eq_dec (lit "a@x.com") 64%N = 1.
Proof.
  split; [reflexivity |].
  exact (proj1 (proj2 (validateEmail_shape (lit "a@x.com")) eq_refl)).
Defined.

Lemma validatePassword_accepts_witness :
  Forall (fun c => ~ Validators.is_digit c) (lit "abcdef")
  /\ validatePassword (lit "abcdef") = false.
Proof.
  assert (H : Forall (fun c => ~ Validators.is_digit c) (lit "abcdef")).
  { apply Forall_forall. intros c Hc. vm_compute in Hc.
    unfold Validators.is_digit.
    repeat (destruct Hc as [<- | Hc]; [lia |]). contradiction. }
  split; [exact H |].
  exact (proj1 (proj2 (validatePassword_accepts (lit "abcdef"))) H).
Defined.

Lemma last_writer_wins_witness :
  AuthStoreOps.writes_user AuthStore.Logout = Some None
  /\ AuthStore.user
       (AuthStore.run
          ([AuthStore.Login aliceProfile]
           ++ AuthStore.Logout :: [AuthStore.SetAuthError None])
          AuthStore.initial) = None.
Proof.
  split; [reflexivity |].
  refine (proj1 (@last_writer_wins [AuthStore.Login aliceProfile]
                   [AuthStore.SetAuthError None] AuthStore.Logout None
                   AuthStore.initial eq_refl _)).
  constructor; [reflexivity | constructor].
Defined.


Lemma gate_and_token_hook_witness :
  truthy (ClassroomHook.sessionToken githubSession) = true
  /\ ClassroomQueries.a_hasAccess
       (ClassroomQueries.useHasClassroomAccess githubSession
          (lit "authenticated") false) = false
  /\ ClassroomHook.hasAccess
       (ClassroomHook.useClassroomAccessToken githubSession
          ClassroomHook.initial) = true.
Proof.
  pose proof (proj2 (proj2 (gate_and_token_hook githubSession
                              (lit "authenticated") false))
                eq_refl eq_refl eq_refl) as (H1 & H2 & _).
  split; [reflexivity | split; assumption].
Defined.


Lemma auth_errors_are_not_retried_witness :
  ClassroomData.ok unauthorized = false
  /\ ClassroomData.status unauthorized = 401%N
  /\ exists e,
       ClassroomData.fetchClassroomCourses (fun _ => Returned unauthorized)
         (lit "T") = Threw e
       /\ forall n, ClassroomQueries.retry n e = false.
Proof.
  split; [reflexivity | split; [reflexivity |]].
  destruct (proj1 (@auth_errors_are_not_retried
                     (fun _ => Returned unauthorized) unauthorized (lit "{}")
                     (lit "c1") (lit "T") (fun _ => eq_refl) eq_refl eq_refl
                     (or_introl eq_refl)))
    as (e1 & e2 & e3 & e4 & H1 & _ & _ & _ & Hr).
  exists e1. split; [exact H1 |]. intro n. exact (proj1 (Hr n)).
Defined.

Lemma announcements_titled_by_text_witness :
  ClassroomData.ok oneAnnouncement = true
  /\ exists out,
       ClassroomData.fetchCourseAnnouncements
         (fun _ => Returned oneAnnouncement) (lit "c1") (lit "T")
       = Returned out
       /\ List.length out = 1.
Proof.
  split; [reflexivity |].
  destruct (@announcements_titled_by_text (fun _ => Returned oneAnnouncement)
              (lit "c1") (lit "T") oneAnnouncement
              {| ClassroomData.courses := None;
                 ClassroomData.courseWork := None;
                 ClassroomData.announcements := Some [welcome];
                 ClassroomData.courseWorkMaterial := None |}
              eq_refl eq_refl eq_refl) as (out & H & L & _).
  exists out. split; [exact H | exact L].
Defined.


Lemma at_most_one_selection_per_reset_witness :
  SectionMaterialModal.loadingItemId readingLoading <> None
  /\ SectionMaterialModal.selections
       (SectionMaterialModal.run
          [SectionMaterialModal.Click readingEntry;
           SectionMaterialModal.SelectTab SectionMaterialModal.assignments;
           SectionMaterialModal.Click readingEntry] readingLoading)
     = SectionMaterialModal.selections readingLoading.
Proof.
  assert (L : SectionMaterialModal.loadingItemId readingLoading <> None)
    by discriminate.
  split; [exact L |].
  refine (proj2 (at_most_one_selection_per_reset _ readingLoading) L _).
  repeat constructor.
Defined.

Lemma modal_queries_need_a_course_witness :
  ClassroomQueries.enabled
    (SectionMaterialModal.courseWorkQuery true None googleSession
       hookWithStored) = false.
Proof.
  exact (proj1 (proj1 (modal_queries_need_a_course true None googleSession
                         hookWithStored) eq_refl)).
Defined.

Lemma filteredProjects_search_witness :
  ClassroomApi.asciiLower [] = []
  /\ HomePage.filteredProjects ClassroomApi.asciiLower [thesis] [] = [thesis].
Proof.
  split; [reflexivity |].
  exact (proj2 (proj2 (filteredProjects_search ClassroomApi.asciiLower
                         [thesis] [])) eq_refl).
Defined.

Lemma handleCreateProject_adds_one_witness :
  ClassroomApi.blank (HomePage.newProjectName demoPage) = false
  /\ AuthStore.id aliceProfile <> []
  /\ HomePage.storeCalls
       (HomePage.handleCreateProject env_offline (Some aliceProfile) demoPage)
     = [HomePage.SetLoading true;
        HomePage.AddProject
          (HomePage.project_to_add env_offline aliceProfile demoPage);
        HomePage.ToggleCreateProject false; HomePage.SetLoading false].
Proof.
  assert (I : AuthStore.id aliceProfile <> []) by discriminate.
  split; [reflexivity | split; [exact I |]].
  exact (proj1 (proj2 (proj2 (handleCreateProject_adds_one env_offline
                                (Some aliceProfile) demoPage)
                         aliceProfile eq_refl eq_refl I))).
Defined.

End MoreScenarios.
